(** * image-scale-hub: the image transformation engine

    A shallow embedding of [utils/image_processor.py] and of the upload
    validator of [utils/security.py], and the properties of the
    specification that are settled on it.

    Python values are modelled as follows.
    - [int] is [Z]; [a // b] is [Z.div] (both round towards minus infinity
      for a positive divisor).
    - [float] is the primitive binary64 [float] of the kernel, which is the
      format of CPython's floats on every supported platform.
    - [bytes] is [list Byte.byte]; [str] is [string].
    - an optional argument ([None] by default) is an [option]; the test
      [if x:] on it is [truthy].
    - a raised [Exception] is [Raise msg], where [msg] is [str(e)].

    Pillow is an interface ([PIL]): the engine calls it, and only the facts
    about it that the engine relies on are recorded as laws. Its resizing,
    its blur and its two encoders may raise, as [Image.open] may: every
    call of them sits under the [try] of the function that makes it. *)

From Stdlib Require Import ZArith List String Ascii Bool Lia Floats DecimalString.
From Equations Require Import Equations.
Import ListNotations.
Local Open Scope string_scope.
Local Open Scope Z_scope.

(** ** Exceptions *)

Inductive result (A : Type) : Type :=
| Ok (a : A)
| Raise (msg : string).
Arguments Ok {A} a.
Arguments Raise {A} msg.

Definition bind {A B : Type} (r : result A) (k : A -> result B) : result B :=
  match r with
  | Ok a => k a
  | Raise msg => Raise msg
  end.

Notation "x <- r ;; k" := (bind r (fun x => k))
  (at level 61, r at next level, right associativity).
Notation "' p <- r ;; k" := (bind r (fun p => k))
  (at level 61, p pattern, r at next level, right associativity).

(** [try: body except Exception as e: raise Exception(f"{prefix}{str(e)}")] *)
Definition reraise {A : Type} (prefix : string) (body : result A) : result A :=
  match body with
  | Ok a => Ok a
  | Raise msg => Raise (prefix ++ msg)
  end.

Definition is_ok {A : Type} (r : result A) : bool :=
  match r with Ok _ => true | Raise _ => false end.

(** ** Python primitives *)

Module Py.

Definition bytes : Type := list Byte.byte.

Definition len {A : Type} (l : list A) : Z := Z.of_nat (List.length l).

(** The value of an optional integer argument when [if x:] holds:
    neither [None] nor [0]. *)
Definition truthy (x : option Z) : option Z :=
  match x with
  | Some z => if z =? 0 then None else Some z
  | None => None
  end.

(** *** Floats *)

Definition spec_of_int (z : Z) : spec_float :=
  match z with
  | Z0 => S754_zero false
  | Zpos p => S754_finite false p 0
  | Zneg p => S754_finite true p 0
  end.

(** A conversion or a quotient too large for a float raises
    [OverflowError]. *)
Definition finite (msg : string) (x : float) : result float :=
  if PrimFloat.is_infinity x then Raise msg else Ok x.

(** [float(z)]: round to nearest, ties to even. *)
Definition float_of_int (z : Z) : result float :=
  finite "int too large to convert to float"
    (SF2Prim (binary_normalize prec emax z 0 false)).

(** [a / b] on two ints: the exact quotient, rounded once. *)
Definition int_truediv (a b : Z) : result float :=
  if b =? 0 then Raise "division by zero"
  else finite "integer division result too large for a float"
         (SF2Prim (SFdiv prec emax (spec_of_int a) (spec_of_int b))).

(** [a / y] with [a] an int and [y] a float. *)
Definition int_div_float (a : Z) (y : float) : result float :=
  x <- float_of_int a ;;
  if PrimFloat.eqb y PrimFloat.zero then Raise "float division by zero"
  else Ok (PrimFloat.div x y).

(** [a * y] with [a] an int and [y] a float. *)
Definition int_mul_float (a : Z) (y : float) : result float :=
  x <- float_of_int a ;;
  Ok (PrimFloat.mul x y).

(** [int(x)]: truncation towards zero; the value of a finite float is
    [m * 2 ^ e]. *)
Definition int_of_float (x : float) : result Z :=
  match Prim2SF x with
  | S754_zero _ => Ok 0
  | S754_finite s m e =>
      let v := if 0 <=? e then Z.shiftl (Zpos m) e else Z.shiftr (Zpos m) (- e) in
      Ok (if s then - v else v)
  | S754_infinity _ => Raise "cannot convert float infinity to integer"
  | S754_nan => Raise "cannot convert float NaN to integer"
  end.

(** [min(x, y)]: the first of the smallest. *)
Definition min (x y : float) : float :=
  if PrimFloat.ltb y x then y else x.

(** *** Strings *)

Definition lower_ascii (c : ascii) : ascii :=
  let n := nat_of_ascii c in
  if (andb (Nat.leb 65 n) (Nat.leb n 90)) then ascii_of_nat (n + 32) else c.

Fixpoint lower (s : string) : string :=
  match s with
  | EmptyString => EmptyString
  | String c s' => String (lower_ascii c) (lower s')
  end.

(** [needle in hay] *)
Fixpoint contains (needle hay : string) : bool :=
  if String.prefix needle hay then true
  else match hay with
       | EmptyString => false
       | String _ hay' => contains needle hay'
       end.

(** [sep.join(l)] *)
Definition join (sep : string) (l : list string) : string :=
  String.concat sep l.

(** [s.lstrip('.')] *)
Fixpoint lstrip_dot (s : string) : string :=
  match s with
  | String "." s' => lstrip_dot s'
  | _ => s
  end.

(** What follows the last occurrence of [c] in [s], or all of [s] when
    there is none: [s.split(c)[-1]]. *)
Fixpoint after_last (c : ascii) (s : string) : string :=
  match s with
  | EmptyString => EmptyString
  | String a s' =>
      if contains (String c EmptyString) s' then after_last c s'
      else if Ascii.eqb a c then s' else s
  end.

(** [os.path.splitext(p)[1]] (posixpath): the part of the last path
    component from its last dot on, dots that lead the component not
    counting; empty when there is no such dot. *)
Definition splitext_ext (p : string) : string :=
  let base := lstrip_dot (after_last "/" p) in
  if contains "." base then String "." (after_last "." base) else "".

Definition str_of_int (z : Z) : string := NilZero.string_of_int (Z.to_int z).

(** *** Bytes *)

Fixpoint startswith (data magic : bytes) : bool :=
  match magic, data with
  | [], _ => true
  | m :: magic', d :: data' => Byte.eqb d m && startswith data' magic'
  | _ :: _, [] => false
  end.

End Py.

(** ** Pillow

    [Image_open] stands for [Image.open(io.BytesIO(data))] with the pixel
    data loaded; the text of a failed opening is given up to the address of
    the buffer object, which Pillow prints in it and which changes from
    call to call: [Image_open] gives the text for one call of a function of
    the engine, and each of them stops at its first failed opening.

    [resample] ([img.resize]), [gaussian_blur] ([img.filter]) and the two
    encoders [save_png] and [save_jpeg] ([img.save]) return or raise:
    Pillow refuses, for instance, to write a 16-bit greyscale image as JPEG
    or a CMYK image as PNG, to blur a palette image, and to resize to a side
    of [2 ** 31]. The size checks Pillow makes before allocating or
    resizing are written out below ([Image_new], [resize]).

    The laws are the facts about Pillow the engine's properties rest on:
    they speak of the calls that return. *)

Definition color : Type := (Z * Z * Z)%type.

Class PIL : Type := {
  Image : Type;
  Image_open : Py.bytes -> result Image;
  verify : Image -> result unit;
  img_width : Image -> Z;
  img_height : Image -> Z;
  img_mode : Image -> string;
  img_format : Image -> string;
  blank : string -> Z -> Z -> color -> Image;
  resample : Image -> Z -> Z -> result Image;
  gaussian_blur : Image -> Z -> result Image;
  paste_at : Image -> Image -> Z * Z -> option Image -> Image;
  convert : Image -> string -> Image;
  last_band : Image -> Image;
  save_png : Image -> result Py.bytes;
  save_jpeg : Image -> Z -> result Py.bytes;
  size_nonneg : forall img, 0 <= img_width img /\ 0 <= img_height img;
  blank_size : forall m w h c,
      0 <= w -> 0 <= h -> img_width (blank m w h c) = w /\ img_height (blank m w h c) = h;
  paste_size : forall canvas img xy mask,
      img_width (paste_at canvas img xy mask) = img_width canvas
      /\ img_height (paste_at canvas img xy mask) = img_height canvas;
  resample_size : forall img w h resized,
      resample img w h = Ok resized ->
      img_width resized = w /\ img_height resized = h;
  open_png : forall img data,
      save_png img = Ok data ->
      exists img',
        Image_open data = Ok img'
        /\ img_width img' = img_width img /\ img_height img' = img_height img;
  open_empty : exists msg,
      Image_open [] = Raise msg
      /\ Py.contains "cannot identify image file" msg = true
}.

(** A wall-clock reading, as [datetime.now()] returns it. *)
Record datetime : Type := {
  year : Z; month : Z; day : Z; hour : Z; minute : Z; second : Z;
  microsecond : Z
}.

(** One entry of [pack_config['outputs']]: a dict whose keys may be
    missing. *)
Record output_spec : Type := {
  o_name : option string;
  o_width : option Z;
  o_height : option Z;
  o_method : option string;
  o_compress : option bool;
  o_compress_target : option Z
}.

Record pack_config : Type := { outputs : option (list output_spec) }.

(** One entry of the list [process_pack] returns. *)
Record pack_result : Type := {
  r_data : Py.bytes;
  r_filename : string;
  r_width : option Z;
  r_height : option Z;
  r_size : Z;
  r_name : string
}.

Record image_info : Type := {
  i_width : Z; i_height : Z; i_format : string; i_size : Z; i_mode : string
}.

(** [d.get(key, default)] *)
Definition get {A : Type} (field : option A) (default : A) : A :=
  match field with Some a => a | None => default end.

(** Left-padding with zeros: the fields of [strftime] have a fixed width. *)
Definition zero_pad (n : nat) (z : Z) : string :=
  let s := Py.str_of_int z in
  (String.concat "" (repeat "0" (n - String.length s)) ++ s)%string.

(** [t.strftime("%Y%m%d_%H%M%S")]: the microsecond is not printed. *)
Definition strftime (t : datetime) : string :=
  (zero_pad 4 (year t) ++ zero_pad 2 (month t) ++ zero_pad 2 (day t) ++ "_"
   ++ zero_pad 2 (hour t) ++ zero_pad 2 (minute t) ++ zero_pad 2 (second t))%string.

(** *** The quality search of [compress_image]

    The [while min_quality <= max_quality] loop, with its three loop
    variables as arguments; [encode q] is [img.save] to JPEG at quality
    [q], and a save that raises ends the loop with its exception. *)

Definition best : Type := (Py.bytes * Z * Z)%type.

Equations? quality_search (encode : Z -> result Py.bytes) (target_size_bytes : Z)
  (min_quality max_quality : Z) (best_result : option best)
  : result (option best)
  by wf (Z.to_nat (max_quality - min_quality + 1)) lt :=
  quality_search encode target_size_bytes min_quality max_quality best_result
    with Z_le_gt_dec min_quality max_quality := {
    | left _ =>
        let mid_quality := (min_quality + max_quality) / 2 in
        match encode mid_quality with
        | Raise msg => Raise msg
        | Ok compressed_data =>
            let compressed_size := Py.len compressed_data in
            if compressed_size <=? target_size_bytes
            then quality_search encode target_size_bytes (mid_quality + 1)
                   max_quality
                   (Some (compressed_data, compressed_size, mid_quality))
            else quality_search encode target_size_bytes min_quality
                   (mid_quality - 1) best_result
        end
    | right _ => Ok best_result }.
Proof.
  all: assert (min_quality <= (min_quality + max_quality) / 2 <= max_quality)
    by (split; [apply Z.div_le_lower_bound | apply Z.div_le_upper_bound]; lia).
  all: lia.
Qed.

(** ** The engine: [utils/image_processor.py] *)

Section Engine.

Context {pil : PIL}.

(** [datetime.now()] at its [k]-th call of a run. *)
Variable now : nat -> datetime.

Definition white : color := (255, 255, 255).

(** [Image.new(mode, (w, h), color)] *)
Definition Image_new (m : string) (w h : Z) (c : color) : result Image :=
  if (w <? 0) || (h <? 0) then Raise "Width and height must be >= 0"
  else Ok (blank m w h c).

(** [img.resize((w, h), Image.Resampling.LANCZOS)]: a request for the
    image's own size returns a copy, and any other one needs both sides
    positive before the resampling is tried. *)
Definition resize (img : Image) (w h : Z) : result Image :=
  if (w =? img_width img) && (h =? img_height img) then Ok img
  else if (w <? 1) || (h <? 1) then Raise "height and width must be > 0"
  else resample img w h.

Definition add_blur_borders (image_data : Py.bytes)
  (target_width target_height blur_amount : Z) : result Py.bytes :=
  reraise "Error processing blur: " (
    img <- Image_open image_data ;;
    canvas <- Image_new "RGB" target_width target_height white ;;
    img_ratio <- Py.int_truediv (img_width img) (img_height img) ;;
    canvas_ratio <- Py.int_truediv target_width target_height ;;
    ' (new_width, new_height) <-
      (if PrimFloat.ltb canvas_ratio img_ratio then
         q <- Py.int_div_float target_width img_ratio ;;
         new_height <- Py.int_of_float q ;;
         Ok (target_width, new_height)
       else
         p <- Py.int_mul_float target_height img_ratio ;;
         new_width <- Py.int_of_float p ;;
         Ok (new_width, target_height)) ;;
    img_resized <- resize img new_width new_height ;;
    ' (bg_width, bg_height) <-
      (r1 <- Py.int_truediv (img_width img) (img_height img) ;;
       r2 <- Py.int_truediv target_width target_height ;;
       if PrimFloat.ltb r2 r1 then
         r <- Py.int_truediv (img_width img) (img_height img) ;;
         p <- Py.int_mul_float target_height r ;;
         bg_width <- Py.int_of_float p ;;
         Ok (bg_width, target_height)
       else
         r <- Py.int_truediv (img_height img) (img_width img) ;;
         p <- Py.int_mul_float target_width r ;;
         bg_height <- Py.int_of_float p ;;
         Ok (target_width, bg_height)) ;;
    img_bg <- resize img bg_width bg_height ;;
    img_blurred <- gaussian_blur img_bg blur_amount ;;
    let bg_x := (target_width - bg_width) / 2 in
    let bg_y := (target_height - bg_height) / 2 in
    let canvas := paste_at canvas img_blurred (bg_x, bg_y) None in
    let img_x := (target_width - new_width) / 2 in
    let img_y := (target_height - new_height) / 2 in
    let canvas := paste_at canvas img_resized (img_x, img_y) None in
    save_png canvas).

(** The conversion both [compress_image] and [strip_exif] start with:
    an image with alpha or a palette is flattened onto white. *)
Definition flatten (img : Image) : result Image :=
  if existsb (String.eqb (img_mode img)) ["RGBA"; "LA"; "P"] then
    background <- Image_new "RGB" (img_width img) (img_height img) white ;;
    let img := if String.eqb (img_mode img) "P" then convert img "RGBA" else img in
    let mask := if String.eqb (img_mode img) "RGBA" then Some (last_band img) else None in
    Ok (paste_at background img (0, 0) mask)
  else Ok img.

(** [img.save(output, format='JPEG', quality=quality, optimize=True)] and
    the triple made of what was written. *)
Definition encoded (img : Image) (quality : Z) : result best :=
  compressed_data <- save_jpeg img quality ;;
  Ok (compressed_data, Py.len compressed_data, quality).

Definition compress_image (image_data : Py.bytes)
  (target_size_kb quality : option Z) : result best :=
  reraise "Error compressing image: " (
    img <- Image_open image_data ;;
    img <- flatten img ;;
    match Py.truthy target_size_kb with
    | Some target_size_kb =>
        let target_size_bytes := target_size_kb * 1024 in
        best_result <- quality_search (save_jpeg img) target_size_bytes 1 100 None ;;
        match best_result with
        | Some best_result => Ok best_result
        | None => encoded img 1
        end
    | None =>
        match Py.truthy quality with
        | Some quality => encoded img quality
        | None => encoded img 85
        end
    end).

(** The new size [resize_image] computes: the [if]/[elif] chain over its
    optional arguments. *)
Definition scaled (side : Z) (scale : float) : result Z :=
  p <- Py.int_mul_float side scale ;;
  Py.int_of_float p.

(** [scale] in the branch [elif max_width or max_height:]. The last case
    is not reached from [new_size]. *)
Definition box_scale (original_width original_height : Z)
  (max_width max_height : option Z) : result float :=
  match Py.truthy max_width, Py.truthy max_height with
  | Some max_width, Some max_height =>
      a <- Py.int_truediv max_width original_width ;;
      b <- Py.int_truediv max_height original_height ;;
      Ok (Py.min a b)
  | Some max_width, None => Py.int_truediv max_width original_width
  | None, Some max_height => Py.int_truediv max_height original_height
  | None, None => Raise "unsupported operand type(s) for /"
  end.

Definition new_size (original_width original_height : Z)
  (width height percentage max_width max_height : option Z) : result (Z * Z) :=
  match Py.truthy percentage with
  | Some percentage =>
      scale <- Py.int_div_float percentage 100%float ;;
      new_width <- scaled original_width scale ;;
      new_height <- scaled original_height scale ;;
      Ok (new_width, new_height)
  | None =>
      match Py.truthy width, Py.truthy height with
      | Some width, Some height => Ok (width, height)
      | Some width, None =>
          r <- Py.int_truediv width original_width ;;
          new_height <- scaled original_height r ;;
          Ok (width, new_height)
      | None, Some height =>
          r <- Py.int_truediv height original_height ;;
          new_width <- scaled original_width r ;;
          Ok (new_width, height)
      | None, None =>
          match Py.truthy max_width, Py.truthy max_height with
          | None, None => Raise "No resize parameters specified"
          | _, _ =>
              scale <- box_scale original_width original_height
                         max_width max_height ;;
              if PrimFloat.leb 1%float scale then
                Ok (original_width, original_height)
              else
                new_width <- scaled original_width scale ;;
                new_height <- scaled original_height scale ;;
                Ok (new_width, new_height)
          end
      end
  end.

Definition resize_image (image_data : Py.bytes)
  (width height percentage max_width max_height : option Z)
  : result (Py.bytes * Z * Z) :=
  reraise "Error resizing image: " (
    img <- Image_open image_data ;;
    ' (new_width, new_height) <-
      new_size (img_width img) (img_height img)
        width height percentage max_width max_height ;;
    resized_img <- resize img new_width new_height ;;
    output <- save_png resized_img ;;
    Ok (output, new_width, new_height)).

(** [raise Exception(msg)] under [if c:] *)
Definition raise_if (c : bool) (msg : string) : result unit :=
  if c then Raise msg else Ok tt.

(** [if allowed_extensions:] followed by the membership test; [ext_of]
    extracts the extension from the file name. *)
Definition extension_allowed (ext_of : string -> string) (filename : string)
  (allowed_extensions : option (list string)) : bool :=
  match allowed_extensions with
  | None | Some [] => true
  | Some exts =>
      existsb (String.eqb (ext_of filename)) (map Py.lower exts)
  end.

Definition validate_image_file (file_data : Py.bytes) (filename : string)
  (max_size : Z) (allowed_extensions : option (list string)) : result bool :=
  let body :=
    _ <- raise_if (Py.len file_data >? max_size)
           ("File size exceeds maximum allowed size of "
            ++ Py.str_of_int (max_size / (1024 * 1024)) ++ "MB") ;;
    _ <- raise_if
           (negb (extension_allowed
                    (fun f => Py.lstrip_dot (Py.lower (Py.splitext_ext f)))
                    filename allowed_extensions))
           ("File type not allowed. Allowed types: "
            ++ Py.join ", " (get allowed_extensions [])) ;;
    img <- Image_open file_data ;;
    _ <- verify img ;;
    img <- Image_open file_data ;;
    _ <- raise_if ((img_width img <? 1) || (img_height img <? 1))
           "Invalid image dimensions" ;;
    _ <- raise_if ((img_width img >? 4000) || (img_height img >? 4000))
           "Image dimensions too large (max 4000x4000)" ;;
    Ok true in
  match body with
  | Ok b => Ok b
  | Raise e =>
      if Py.contains "cannot identify image file" e
      then Raise "Invalid image file"
      else Raise e
  end.

Definition get_image_info (image_data : Py.bytes) : result image_info :=
  reraise "Error getting image info: " (
    img <- Image_open image_data ;;
    Ok {| i_width := img_width img; i_height := img_height img;
          i_format := img_format img; i_size := Py.len image_data;
          i_mode := img_mode img |}).

(** *** [process_pack] *)

(** [add_blur_borders(image_data, width, height)] on the values of the
    dict: a missing side reaches [Image.new] as [None], after the image is
    opened. The size check of [Image.new] is
    [if size[0] < 0 or size[1] < 0: raise ValueError(...)], and comparing
    [None] with [0] is a [TypeError]. *)
Definition blur_output (image_data : Py.bytes) (width height : option Z)
  : result Py.bytes :=
  match width, height with
  | Some w, Some h => add_blur_borders image_data w h 30
  | _, _ =>
      reraise "Error processing blur: " (
        _ <- Image_open image_data ;;
        if match width with Some w => w <? 0 | None => false end
        then Raise "Width and height must be >= 0"
        else Raise "'<' not supported between instances of 'NoneType' and 'int'")
  end.

(** The dispatch on [method]; [None] is the [continue] of the last
    branch. *)
Definition transform (image_data : Py.bytes) (output : output_spec)
  : option (result Py.bytes) :=
  let width := o_width output in
  let height := o_height output in
  let method := get (o_method output) "blur" in
  if String.eqb method "blur" then
    Some (blur_output image_data width height)
  else if String.eqb method "resize" then
    Some (' (processed_data, _, _) <-
            resize_image image_data width height None None None ;;
          Ok processed_data)
  else None.

(** [if compress:] and what it guards. *)
Definition compress_stage (processed_data : Py.bytes) (compress : bool)
  (compress_target : option Z) : result Py.bytes :=
  if compress then
    match Py.truthy compress_target with
    | Some compress_target =>
        ' (processed_data, _, _) <-
          compress_image processed_data (Some (compress_target / 1024)) None ;;
        Ok processed_data
    | None =>
        ' (processed_data, _, _) <-
          compress_image processed_data None (Some 85) ;;
        Ok processed_data
    end
  else Ok processed_data.

(** The [for output in outputs] loop; [tick] counts the calls of
    [datetime.now()] so far and [results] is the list being built. *)
Fixpoint pack_loop (image_data : Py.bytes) (outputs : list output_spec)
  (tick : nat) (results : list pack_result) : result (list pack_result) :=
  match outputs with
  | [] => Ok results
  | output :: rest =>
      let name := get (o_name output) "output" in
      let compress := get (o_compress output) false in
      let compress_target := o_compress_target output in
      match transform image_data output with
      | None => pack_loop image_data rest tick results
      | Some processed =>
          match processed with
          | Raise msg => Raise msg
          | Ok processed_data =>
              match compress_stage processed_data compress compress_target with
              | Raise msg => Raise msg
              | Ok processed_data =>
                  let timestamp := strftime (now tick) in
                  let filename := (name ++ "_" ++ timestamp ++ ".png")%string in
                  pack_loop image_data rest (S tick)
                    (results ++ [ {| r_data := processed_data;
                                     r_filename := filename;
                                     r_width := o_width output;
                                     r_height := o_height output;
                                     r_size := Py.len processed_data;
                                     r_name := name |} ])%list
              end
          end
      end
  end.

Definition process_pack (image_data : Py.bytes) (config : pack_config)
  : result (list pack_result) :=
  reraise "Error processing pack: "
    (pack_loop image_data (get (outputs config) []) 0 []).

End Engine.

(** ** The upload validator of [utils/security.py] *)

Module Security.

Definition bytes_of (s : string) : Py.bytes := list_byte_of_string s.

Definition magic_bytes : list (Py.bytes * string) :=
  [ ([Byte.xff; Byte.xd8; Byte.xff], "jpg");
    ([Byte.x89; Byte.x50; Byte.x4e; Byte.x47;
      Byte.x0d; Byte.x0a; Byte.x1a; Byte.x0a], "png");
    (bytes_of "GIF87a", "gif");
    (bytes_of "GIF89a", "gif");
    (bytes_of "RIFF", "webp") ].

Definition dangerous_patterns : list Py.bytes :=
  map bytes_of
    ["<script"; "javascript:"; "vbscript:"; "data:text/html";
     "<?php"; "<%"; "eval("; "exec("].

(** [data.lower()] *)
Definition lower_bytes (data : Py.bytes) : Py.bytes :=
  map (fun b => byte_of_ascii (Py.lower_ascii (ascii_of_byte b))) data.

(** [pattern in data] *)
Fixpoint bytes_contain (pattern data : Py.bytes) : bool :=
  if Py.startswith data pattern then true
  else match data with
       | [] => false
       | _ :: data' => bytes_contain pattern data'
       end.

(** The loop over [magic_bytes.items()]. *)
Definition is_valid_image (file_data : Py.bytes) : bool :=
  existsb (fun entry => Py.startswith file_data (fst entry)) magic_bytes.

Definition validate_file_upload (file_data : Py.bytes) (filename : string)
  (max_size : Z) (allowed_extensions : option (list string)) : result bool :=
  _ <- raise_if (Py.len file_data >? max_size)
         ("File too large. Maximum size: "
          ++ Py.str_of_int (max_size / (1024 * 1024)) ++ "MB") ;;
  _ <- raise_if
         (negb (extension_allowed
                  (fun f => Py.after_last "." (Py.lower f))
                  filename allowed_extensions))
         ("File type not allowed. Allowed: "
          ++ Py.join ", " (get allowed_extensions [])) ;;
  _ <- raise_if (negb (is_valid_image file_data)) "Invalid file format" ;;
  _ <- raise_if
         (existsb (fun pattern => bytes_contain pattern (lower_bytes file_data))
            dangerous_patterns)
         "Dangerous content detected in file" ;;
  Ok true.

End Security.

(** ** A small codec implementing the Pillow interface

    Used to run the engine on concrete inputs. A file is a signature, a
    mode byte, the two sides in unary (bytes [01] closed by [00]) and a
    payload; JPEG payloads grow with the quality. Besides PNG and JPEG the
    codec reads BMP, as Pillow does; and as Pillow does it refuses to write
    CMYK as PNG, anything but L, RGB and CMYK as JPEG, to blur a palette
    image, and to resize to a side of [2 ** 31] or more. *)

Module Toy.

Record timage : Type := {
  t_width : nat; t_height : nat; t_mode : string; t_format : string
}.

Definition png_signature : Py.bytes :=
  [Byte.x89; Byte.x50; Byte.x4e; Byte.x47; Byte.x0d; Byte.x0a; Byte.x1a; Byte.x0a].
Definition jpeg_signature : Py.bytes := [Byte.xff; Byte.xd8; Byte.xff].
Definition bmp_signature : Py.bytes := [Byte.x42; Byte.x4d].

Definition mode_byte (m : string) : Byte.byte :=
  if String.eqb m "RGBA" then Byte.x01
  else if String.eqb m "P" then Byte.x02
  else if String.eqb m "L" then Byte.x03
  else if String.eqb m "LA" then Byte.x04
  else if String.eqb m "I;16" then Byte.x05
  else if String.eqb m "CMYK" then Byte.x06
  else Byte.x00.

Definition byte_mode (b : Byte.byte) : string :=
  if Byte.eqb b Byte.x01 then "RGBA"
  else if Byte.eqb b Byte.x02 then "P"
  else if Byte.eqb b Byte.x03 then "L"
  else if Byte.eqb b Byte.x04 then "LA"
  else if Byte.eqb b Byte.x05 then "I;16"
  else if Byte.eqb b Byte.x06 then "CMYK"
  else "RGB".

Definition unary (n : nat) : Py.bytes := (repeat Byte.x01 n ++ [Byte.x00])%list.

Definition header (img : timage) : Py.bytes :=
  (mode_byte (t_mode img) :: unary (t_width img) ++ unary (t_height img))%list.

(** The number of leading [01] bytes, and what follows them. *)
Fixpoint count_ones (data : Py.bytes) : nat * Py.bytes :=
  match data with
  | b :: data' =>
      if Byte.eqb b Byte.x01
      then let (n, rest) := count_ones data' in (S n, rest)
      else (O, data)
  | [] => (O, [])
  end.

Definition parse (fmt : string) (data : Py.bytes) : result timage :=
  match data with
  | m :: data1 =>
      match count_ones data1 with
      | (w, _ :: data2) =>
          match count_ones data2 with
          | (h, _ :: _) =>
              Ok {| t_width := w; t_height := h;
                    t_mode := byte_mode m; t_format := fmt |}
          | _ => Raise "image file is truncated"
          end
      | _ => Raise "image file is truncated"
      end
  | [] => Raise "image file is truncated"
  end.

Definition open (data : Py.bytes) : result timage :=
  if Py.startswith data png_signature then parse "PNG" (skipn 8 data)
  else if Py.startswith data jpeg_signature then parse "JPEG" (skipn 3 data)
  else if Py.startswith data bmp_signature then parse "BMP" (skipn 2 data)
  else Raise "cannot identify image file <_io.BytesIO object>".

Definition png (img : timage) : Py.bytes := (png_signature ++ header img)%list.

Definition jpeg (img : timage) (quality : Z) : Py.bytes :=
  (jpeg_signature ++ header img
     ++ repeat Byte.x2a (Z.to_nat quality * t_width img))%list.

Definition bmp (img : timage) : Py.bytes := (bmp_signature ++ header img)%list.

Definition write_png (img : timage) : result Py.bytes :=
  if String.eqb (t_mode img) "CMYK" then Raise "cannot write mode CMYK as PNG"
  else Ok (png img).

Definition write_jpeg (img : timage) (quality : Z) : result Py.bytes :=
  if existsb (String.eqb (t_mode img)) ["L"; "RGB"; "CMYK"]
  then Ok (jpeg img quality)
  else Raise ("cannot write mode " ++ t_mode img ++ " as JPEG").

Definition sized (img : timage) (w h : Z) : timage :=
  {| t_width := Z.to_nat w; t_height := Z.to_nat h;
     t_mode := t_mode img; t_format := t_format img |}.

Definition stretch (img : timage) (w h : Z) : result timage :=
  if (w <? 1) || (h <? 1) then Raise "height and width must be > 0"
  else if (2 ^ 31 <=? w) || (2 ^ 31 <=? h)
  then Raise "signed integer is greater than maximum"
  else Ok (sized img w h).

Definition blur (img : timage) (radius : Z) : result timage :=
  if String.eqb (t_mode img) "P" then Raise "image has wrong mode" else Ok img.

Lemma count_ones_unary (n : nat) (rest : Py.bytes) :
  count_ones (unary n ++ rest)%list = (n, (Byte.x00 :: rest)%list).
Proof.
  unfold unary. induction n as [|n IH]; simpl; [reflexivity|].
  simpl in IH. rewrite IH. reflexivity.
Qed.

Lemma parse_header (fmt : string) (img : timage) (rest : Py.bytes) :
  exists img', parse fmt (header img ++ rest)%list = Ok img'
               /\ t_width img' = t_width img /\ t_height img' = t_height img.
Proof.
  unfold parse, header. simpl.
  rewrite <- app_assoc, count_ones_unary, count_ones_unary.
  eexists; split; [reflexivity|]. split; reflexivity.
Qed.

Definition filled (m : string) (w h : Z) (c : color) : timage :=
  {| t_width := Z.to_nat w; t_height := Z.to_nat h; t_mode := m; t_format := "" |}.

Definition with_mode (img : timage) (m : string) : timage :=
  {| t_width := t_width img; t_height := t_height img;
     t_mode := m; t_format := t_format img |}.

Definition zwidth (img : timage) : Z := Z.of_nat (t_width img).
Definition zheight (img : timage) : Z := Z.of_nat (t_height img).

Lemma sides_nonneg (img : timage) : 0 <= zwidth img /\ 0 <= zheight img.
Proof. unfold zwidth, zheight. lia. Qed.

Lemma filled_size (m : string) (w h : Z) (c : color) :
  0 <= w -> 0 <= h ->
  zwidth (filled m w h c) = w /\ zheight (filled m w h c) = h.
Proof. unfold zwidth, zheight. simpl. lia. Qed.

Lemma png_reopens (img : timage) (data : Py.bytes) :
  write_png img = Ok data ->
  exists img', open data = Ok img'
               /\ zwidth img' = zwidth img /\ zheight img' = zheight img.
Proof.
  unfold write_png. destruct (String.eqb (t_mode img) "CMYK"); [discriminate|].
  intros Hdata. inversion Hdata; subst data.
  destruct (parse_header "PNG" img []) as (img' & Hp & Hw & Hh).
  exists img'. rewrite app_nil_r in Hp. unfold zwidth, zheight.
  split; [exact Hp | split; congruence].
Qed.

Lemma stretch_size (img : timage) (w h : Z) (resized : timage) :
  stretch img w h = Ok resized -> zwidth resized = w /\ zheight resized = h.
Proof.
  unfold stretch.
  destruct (Z.ltb_spec w 1); [discriminate|].
  destruct (Z.ltb_spec h 1); [discriminate|].
  cbn [orb]. destruct (_ || _); [discriminate|].
  intros Hres. inversion Hres; subst resized.
  unfold zwidth, zheight, sized. cbn. lia.
Qed.

Lemma empty_unidentified :
  exists msg, open [] = Raise msg
              /\ Py.contains "cannot identify image file" msg = true.
Proof. eexists; split; reflexivity. Qed.

#[export] Instance pil : PIL := {|
  Image := timage;
  Image_open := open;
  verify := fun _ => Ok tt;
  img_width := zwidth;
  img_height := zheight;
  img_mode := t_mode;
  img_format := t_format;
  blank := filled;
  resample := stretch;
  gaussian_blur := blur;
  paste_at := fun canvas _ _ _ => canvas;
  convert := with_mode;
  last_band := fun img => with_mode img "L";
  save_png := write_png;
  save_jpeg := write_jpeg;
  size_nonneg := sides_nonneg;
  blank_size := filled_size;
  paste_size := fun canvas _ _ _ => conj eq_refl eq_refl;
  resample_size := stretch_size;
  open_png := png_reopens;
  open_empty := empty_unidentified
|}.

(** A clock that stands still, and one that ticks every second. *)
Definition noon : datetime :=
  {| year := 2024; month := 5; day := 17; hour := 12; minute := 0; second := 0;
     microsecond := 0 |}.
Definition frozen (k : nat) : datetime := noon.
Definition ticking (k : nat) : datetime :=
  {| year := 2024; month := 5; day := 17; hour := 12; minute := 0;
     second := Z.of_nat k + 1; microsecond := 0 |}.


End Toy.

(** * Properties *)

(** ** The quality search *)

Lemma mid_bounds (lo hi : Z) : lo <= hi -> lo <= (lo + hi) / 2 <= hi.
Proof.
  intros H. split; [apply Z.div_le_lower_bound | apply Z.div_le_upper_bound]; lia.
Qed.

(** One turn of the loop. *)
Lemma search_step (encode : Z -> result Py.bytes) (target lo hi : Z)
  (b : option best) :
  quality_search encode target lo hi b =
    if lo <=? hi then
      match encode ((lo + hi) / 2) with
      | Raise msg => Raise msg
      | Ok d =>
          if Py.len d <=? target
          then quality_search encode target ((lo + hi) / 2 + 1) hi
                 (Some (d, Py.len d, (lo + hi) / 2))
          else quality_search encode target lo ((lo + hi) / 2 - 1) b
      end
    else Ok b.
Proof.
  rewrite quality_search_equation_1.
  destruct (Z_le_gt_dec lo hi) as [Hle | Hgt];
    destruct (Z.leb_spec lo hi); try lia.
  - rewrite quality_search_clause_1_equation_1. reflexivity.
  - reflexivity.
Qed.

(** Induction on the width of the interval still to search. *)
Lemma search_ind (P : Z -> Z -> option best -> Prop) :
  (forall lo hi b, hi < lo -> P lo hi b) ->
  (forall lo hi b, lo <= hi ->
      (forall lo' hi' b', hi' - lo' < hi - lo -> P lo' hi' b') -> P lo hi b) ->
  forall lo hi b, P lo hi b.
Proof.
  intros Hstop Hturn lo hi.
  assert (Hn : exists n, (Z.to_nat (hi - lo + 1) <= n)%nat) by (eexists; reflexivity).
  destruct Hn as [n Hn]. revert lo hi Hn.
  induction n as [|n IH]; intros lo hi Hn b.
  - apply Hstop. lia.
  - destruct (Z_le_gt_dec lo hi) as [Hle | Hgt]; [|apply Hstop; lia].
    apply Hturn; [exact Hle|]. intros lo' hi' b' Hlt. apply IH. lia.
Qed.

(** A search whose first save raises, raises. *)
Lemma search_first_raises (encode : Z -> result Py.bytes) (target lo hi : Z)
  (b : option best) (msg : string) :
  lo <= hi ->
  encode ((lo + hi) / 2) = Raise msg ->
  quality_search encode target lo hi b = Raise msg.
Proof.
  intros Hle Hmid. rewrite search_step, Hmid.
  destruct (Z.leb_spec lo hi); [reflexivity | lia].
Qed.

(** A search raises only what one of its saves raised. *)
Lemma search_raise_from_save (encode : Z -> result Py.bytes) (target : Z)
  (msg : string) :
  forall lo hi b,
    quality_search encode target lo hi b = Raise msg ->
    exists q, lo <= q <= hi /\ encode q = Raise msg.
Proof.
  apply (search_ind (fun lo hi b =>
    quality_search encode target lo hi b = Raise msg ->
    exists q, lo <= q <= hi /\ encode q = Raise msg)).
  - intros lo hi b Hlt. rewrite search_step.
    destruct (Z.leb_spec lo hi); [lia | discriminate].
  - intros lo hi b Hle IH. rewrite search_step.
    pose proof (mid_bounds _ _ Hle) as Hmid.
    destruct (Z.leb_spec lo hi); [|lia].
    destruct (encode ((lo + hi) / 2)) as [d|msg'] eqn:Henc.
    + destruct (Py.len d <=? target); intros Hraise;
        apply IH in Hraise; try lia;
        destruct Hraise as (q & Hq & Hsave); exists q; split; try lia; exact Hsave.
    + intros Hraise. inversion Hraise; subst msg'.
      exists ((lo + hi) / 2). split; [lia | exact Henc].
Qed.

(** The search over an encoder that returns at every quality of 1..100:
    [enc q] is what it writes at quality [q]. *)
Section Search.

Variable encode : Z -> result Py.bytes.
Variable enc : Z -> Py.bytes.
Variable target : Z.

Hypothesis encodes : forall q, 1 <= q <= 100 -> encode q = Ok (enc q).

Let size (q : Z) : Z := Py.len (enc q).
Let entry (q : Z) : best := (enc q, size q, q).
Let search := quality_search encode target.

Lemma search_turn (lo hi : Z) (b : option best) :
  1 <= lo -> lo <= hi -> hi <= 100 ->
  search lo hi b =
    if size ((lo + hi) / 2) <=? target
    then search ((lo + hi) / 2 + 1) hi (Some (entry ((lo + hi) / 2)))
    else search lo ((lo + hi) / 2 - 1) b.
Proof.
  intros Hlo Hle Hhi. unfold search. rewrite search_step.
  pose proof (mid_bounds _ _ Hle) as Hmid.
  destruct (Z.leb_spec lo hi); [|lia].
  rewrite encodes by lia. reflexivity.
Qed.

Lemma search_done (lo hi : Z) (b : option best) :
  hi < lo -> search lo hi b = Ok b.
Proof.
  intros Hlt. unfold search. rewrite search_step.
  destruct (Z.leb_spec lo hi); [lia | reflexivity].
Qed.

(** Once a result is recorded, a result is returned. *)
Lemma search_some (lo hi : Z) (r0 : best) :
  1 <= lo -> hi <= 100 ->
  exists r, search lo hi (Some r0) = Ok (Some r).
Proof.
  assert (H : forall lo hi b, 1 <= lo -> hi <= 100 -> b <> None ->
                exists r, search lo hi b = Ok (Some r)).
  { apply (search_ind (fun lo hi b =>
      1 <= lo -> hi <= 100 -> b <> None ->
      exists r, search lo hi b = Ok (Some r))).
    - intros lo' hi' b Hlt _ _ Hb. rewrite search_done by exact Hlt.
      destruct b as [r|]; [eauto | congruence].
    - intros lo' hi' b Hle IH Hlo Hhi Hb. rewrite search_turn by assumption.
      pose proof (mid_bounds _ _ Hle) as Hmid.
      destruct (Z.leb_spec (size ((lo' + hi') / 2)) target).
      + apply IH; try lia. congruence.
      + apply IH; try lia. exact Hb. }
  intros Hlo Hhi. apply H; [exact Hlo | exact Hhi | congruence].
Qed.

(** What is returned is the best so far, or the encoding of a quality of
    the interval that meets the target. *)
Lemma search_within (lo hi : Z) (b : option best) :
  1 <= lo -> hi <= 100 ->
  search lo hi b = Ok b
  \/ exists q, lo <= q <= hi /\ size q <= target
               /\ search lo hi b = Ok (Some (entry q)).
Proof.
  revert lo hi b. apply (search_ind (fun lo hi b =>
    1 <= lo -> hi <= 100 ->
    search lo hi b = Ok b
    \/ exists q, lo <= q <= hi /\ size q <= target
                 /\ search lo hi b = Ok (Some (entry q)))).
  - intros lo hi b Hlt _ _. left. apply search_done. exact Hlt.
  - intros lo hi b Hle IH Hlo Hhi. rewrite search_turn by assumption.
    pose proof (mid_bounds _ _ Hle) as Hmid.
    destruct (Z.leb_spec (size ((lo + hi) / 2)) target) as [Hfit | Hbig].
    + right.
      destruct (IH ((lo + hi) / 2 + 1) hi (Some (entry ((lo + hi) / 2))))
        as [Hsame | (q & Hq & Hsz & Hres)]; try lia.
      * exists ((lo + hi) / 2). repeat split; try lia. exact Hsame.
      * exists q. repeat split; try lia. exact Hres.
    + destruct (IH lo ((lo + hi) / 2 - 1) b) as [Hsame | (q & Hq & Hsz & Hres)];
        try lia; [left; exact Hsame|].
      right. exists q. repeat split; try lia. exact Hres.
Qed.

(** A search that records nothing has probed the lower end of its
    interval, and found it over the target. *)
Lemma search_none_low :
  forall lo hi, 1 <= lo -> lo <= hi -> hi <= 100 ->
                search lo hi None = Ok None -> target < size lo.
Proof.
  assert (H : forall lo hi b, b = None -> 1 <= lo -> lo <= hi -> hi <= 100 ->
              search lo hi b = Ok None -> target < size lo).
  { apply (search_ind (fun lo hi b => b = None -> 1 <= lo -> lo <= hi ->
              hi <= 100 -> search lo hi b = Ok None -> target < size lo)).
    - intros; lia.
    - intros lo hi b Hle IH Hb Hlo _ Hhi. rewrite search_turn by assumption.
      pose proof (mid_bounds _ _ Hle) as Hmid.
      destruct (Z.leb_spec (size ((lo + hi) / 2)) target) as [Hfit | Hbig].
      + intros Hnone.
        destruct (search_some ((lo + hi) / 2 + 1) hi (entry ((lo + hi) / 2)))
          as [r Hr]; try lia. congruence.
      + intros Hnone.
        destruct (Z_le_gt_dec lo ((lo + hi) / 2 - 1)) as [Hmore | Hlast].
        * apply (IH lo ((lo + hi) / 2 - 1) b); try lia; assumption.
        * assert (Heq : (lo + hi) / 2 = lo) by lia.
          rewrite Heq in Hbig. exact Hbig. }
  intros lo hi. apply H. reflexivity.
Qed.

(** With sizes that grow with the quality, the search keeps the
    qualities below [lo] within the target and those above [hi] over it,
    and ends on the last quality within the target. *)
Lemma search_max :
  (forall q q', 1 <= q -> q <= q' -> q' <= 100 -> size q <= size q') ->
  forall lo hi b,
    1 <= lo -> hi <= 100 -> lo <= hi + 1 ->
    (forall q, 1 <= q < lo -> size q <= target) ->
    (forall q, hi < q <= 100 -> target < size q) ->
    (lo = 1 /\ b = None \/ 1 < lo /\ b = Some (entry (lo - 1))) ->
    exists q, 0 <= q <= 100
              /\ (forall q', 1 <= q' <= q -> size q' <= target)
              /\ (forall q', q < q' <= 100 -> target < size q')
              /\ search lo hi b = Ok (if q =? 0 then None else Some (entry q)).
Proof.
  intros Hmono.
  apply (search_ind (fun lo hi b =>
    1 <= lo -> hi <= 100 -> lo <= hi + 1 ->
    (forall q, 1 <= q < lo -> size q <= target) ->
    (forall q, hi < q <= 100 -> target < size q) ->
    (lo = 1 /\ b = None \/ 1 < lo /\ b = Some (entry (lo - 1))) ->
    exists q, 0 <= q <= 100
              /\ (forall q', 1 <= q' <= q -> size q' <= target)
              /\ (forall q', q < q' <= 100 -> target < size q')
              /\ search lo hi b = Ok (if q =? 0 then None else Some (entry q)))).
  - intros lo hi b Hlt HL HH Hadj Hbelow Habove Hb.
    exists (lo - 1). rewrite search_done by exact Hlt.
    repeat split; try lia.
    + intros q' Hq'. apply Hbelow. lia.
    + intros q' Hq'. apply Habove. lia.
    + destruct Hb as [[-> ->] | [Hgt ->]].
      * reflexivity.
      * destruct (Z.eqb_spec (lo - 1) 0); [lia | reflexivity].
  - intros lo hi b Hle IH HL HH _ Hbelow Habove Hb.
    rewrite search_turn by assumption.
    pose proof (mid_bounds _ _ Hle) as Hmid.
    destruct (Z.leb_spec (size ((lo + hi) / 2)) target) as [Hfit | Hbig].
    + apply IH; try lia.
      * intros q Hq. specialize (Hmono q ((lo + hi) / 2)). lia.
      * exact Habove.
      * right. split; [lia|]. do 2 f_equal. lia.
    + apply IH; try lia.
      * exact Hbelow.
      * intros q Hq. specialize (Hmono ((lo + hi) / 2) q). lia.
      * exact Hb.
Qed.

End Search.

(** ** [compress_image] *)

Section Compress.

Context {pil : PIL}.

(** [compress_image] on a buffer that decodes: the three branches. *)
Lemma compress_image_decoded (image_data : Py.bytes) (img0 img : Image)
  (target_size_kb quality : option Z) :
  Image_open image_data = Ok img0 -> flatten img0 = Ok img ->
  compress_image image_data target_size_kb quality =
    reraise "Error compressing image: "
      match Py.truthy target_size_kb with
      | Some kb =>
          best_result <- quality_search (save_jpeg img) (kb * 1024) 1 100 None ;;
          match best_result with
          | Some best_result => Ok best_result
          | None => encoded img 1
          end
      | None =>
          match Py.truthy quality with
          | Some q => encoded img q
          | None => encoded img 85
          end
      end.
Proof.
  intros Hopen Hflat. unfold compress_image. rewrite Hopen. cbn [bind].
  rewrite Hflat. reflexivity.
Qed.

Lemma truthy_nonzero (z : Z) : z <> 0 -> Py.truthy (Some z) = Some z.
Proof. intros Hz. simpl. destruct (Z.eqb_spec z 0); [contradiction | reflexivity]. Qed.

Lemma encoded_written (img : Image) (q : Z) (data : Py.bytes) :
  save_jpeg img q = Ok data -> encoded img q = Ok (data, Py.len data, q).
Proof. intros Hsave. unfold encoded. rewrite Hsave. reflexivity. Qed.

(** A target of zero kilobytes is no target: the call goes by [quality],
    and by 85 without one. *)
Lemma compress_image_zero_target (image_data : Py.bytes) (img0 img : Image) :
  Image_open image_data = Ok img0 -> flatten img0 = Ok img ->
  compress_image image_data (Some 0) None
  = reraise "Error compressing image: " (encoded img 85).
Proof.
  intros Hopen Hflat.
  rewrite (compress_image_decoded _ _ _ (Some 0) None Hopen Hflat). reflexivity.
Qed.

(** Under a target, with an encoder that returns: the result of the
    search, or the encoding at quality 1. *)
Lemma compress_image_searched (image_data : Py.bytes) (img0 img : Image)
  (enc : Z -> Py.bytes) (kb : Z) (quality : option Z) (found : option best) :
  Image_open image_data = Ok img0 -> flatten img0 = Ok img ->
  kb <> 0 ->
  (forall q, 1 <= q <= 100 -> save_jpeg img q = Ok (enc q)) ->
  quality_search (save_jpeg img) (kb * 1024) 1 100 None = Ok found ->
  compress_image image_data (Some kb) quality
  = Ok match found with
       | Some best_result => best_result
       | None => (enc 1, Py.len (enc 1), 1)
       end.
Proof.
  intros Hopen Hflat Hkb Henc Hfound.
  rewrite (compress_image_decoded _ _ _ _ _ Hopen Hflat), (truthy_nonzero _ Hkb).
  rewrite Hfound. cbn [bind]. destruct found as [r|]; [reflexivity|].
  rewrite (encoded_written img 1 (enc 1)) by (apply Henc; lia). reflexivity.
Qed.

End Compress.

Module ToyFacts.
Import Toy.

(** A 64 x 64 picture, a banner of 4000 x 1, a 16-bit greyscale scan and a
    CMYK picture for print that comes as a JPEG. *)
Definition picture : timage :=
  {| t_width := 64; t_height := 64; t_mode := "RGB"; t_format := "PNG" |}.
Definition banner : timage :=
  {| t_width := 4000; t_height := 1; t_mode := "RGB"; t_format := "PNG" |}.
Definition scan : timage :=
  {| t_width := 64; t_height := 64; t_mode := "I;16"; t_format := "PNG" |}.
Definition press : timage :=
  {| t_width := 300; t_height := 100; t_mode := "CMYK"; t_format := "JPEG" |}.

Lemma jpeg_len (img : timage) (quality : Z) :
  Py.len (jpeg img quality)
  = 6 + zwidth img + zheight img + Z.max 0 quality * zwidth img.
Proof.
  unfold Py.len, jpeg, header, unary, zwidth, zheight, jpeg_signature.
  cbn [List.length app].
  rewrite ?length_app, ?repeat_length. cbn [List.length]. nia.
Qed.

Lemma jpeg_grows (img : timage) (q q' : Z) :
  q <= q' -> Py.len (jpeg img q) <= Py.len (jpeg img q').
Proof.
  intros Hq. rewrite !jpeg_len.
  pose proof (sides_nonneg img) as [Hw _]. nia.
Qed.

End ToyFacts.

(** C2. When the JPEG encoder returns at each quality of 1..100, the
    encoded size does not decrease as the quality grows and some quality of
    1..100 meets the target, the target-size search of [compress_image]
    returns the encoding at the greatest quality of 1..100 whose size is at
    most the target, together with that size and that quality. *)
Theorem compress_image_finds_max_quality {pil : PIL}
  (image_data : Py.bytes) (img0 img : Image) (enc : Z -> Py.bytes)
  (target_size_kb : Z) (quality : option Z) :
  Image_open image_data = Ok img0 ->
  flatten img0 = Ok img ->
  target_size_kb <> 0 ->
  (forall q, 1 <= q <= 100 -> save_jpeg img q = Ok (enc q)) ->
  (forall q q', 1 <= q -> q <= q' -> q' <= 100 ->
     Py.len (enc q) <= Py.len (enc q')) ->
  (exists q0, 1 <= q0 <= 100 /\ Py.len (enc q0) <= target_size_kb * 1024) ->
  exists q,
    compress_image image_data (Some target_size_kb) quality
    = Ok (enc q, Py.len (enc q), q)
    /\ 1 <= q <= 100
    /\ Py.len (enc q) <= target_size_kb * 1024
    /\ forall q', 1 <= q' <= 100 ->
         Py.len (enc q') <= target_size_kb * 1024 -> q' <= q.
Proof.
  intros Hopen Hflat Hkb Henc Hmono (q0 & Hq0 & Hfit0).
  destruct (search_max (save_jpeg img) enc (target_size_kb * 1024) Henc Hmono
              1 100 None) as (q & Hq & Hbelow & Habove & Hres);
    try lia.
  - left. split; reflexivity.
  - assert (Hge : q0 <= q).
    { destruct (Z_le_gt_dec q0 q) as [Hle | Hgt]; [exact Hle|].
      specialize (Habove q0). lia. }
    exists q.
    rewrite (compress_image_searched _ _ _ enc _ _ _ Hopen Hflat Hkb Henc Hres).
    destruct (Z.eqb_spec q 0) as [Heq | Hne]; [lia|].
    split; [reflexivity|]. split; [lia|]. split.
    + apply Hbelow. lia.
    + intros q' Hq' Hfit'.
      destruct (Z_le_gt_dec q' q) as [Hle | Hgt]; [exact Hle|].
      specialize (Habove q'). lia.
Qed.

Lemma compress_image_finds_max_quality_witness :
  exists q,
    @compress_image Toy.pil (Toy.png ToyFacts.picture) (Some 2) None
    = Ok (Toy.jpeg ToyFacts.picture q, Py.len (Toy.jpeg ToyFacts.picture q), q)
    /\ 1 <= q <= 100
    /\ Py.len (Toy.jpeg ToyFacts.picture q) <= 2 * 1024
    /\ forall q', 1 <= q' <= 100 ->
         Py.len (Toy.jpeg ToyFacts.picture q') <= 2 * 1024 -> q' <= q.
Proof.
  apply (@compress_image_finds_max_quality Toy.pil (Toy.png ToyFacts.picture)
           ToyFacts.picture ToyFacts.picture (Toy.jpeg ToyFacts.picture) 2 None).
  - reflexivity.
  - reflexivity.
  - lia.
  - intros q _. reflexivity.
  - intros q q' _ Hq _. apply ToyFacts.jpeg_grows. exact Hq.
  - exists 1. split; [lia|]. vm_compute. discriminate.
Defined.

(** C1 (as amended). On an image that the JPEG encoder accepts (it returns
    at each quality of 1..100) and with a target other than zero,
    [compress_image] returns the encoding at some quality of 1..100 with
    its size in bytes and that quality. The size is at most the target
    ([1024 * target_size_kb] bytes) whenever the quality-1 encoding is; and
    when no quality of 1..100 meets the target (with sizes growing with the
    quality: when the quality-1 encoding is over the target), the result is
    the quality-1 encoding, over the target, with quality 1. On an image
    that the encoder refuses, the call raises what the encoder raised,
    under the prefix of [compress_image]; and once the image is decoded
    and flattened the call raises in no other way. *)
Theorem compress_image_target_bound {pil : PIL}
  (image_data : Py.bytes) (img0 img : Image) (target_size_kb : Z)
  (quality : option Z) :
  Image_open image_data = Ok img0 ->
  flatten img0 = Ok img ->
  target_size_kb <> 0 ->
  let target := target_size_kb * 1024 in
  (forall enc : Z -> Py.bytes,
     (forall q, 1 <= q <= 100 -> save_jpeg img q = Ok (enc q)) ->
     let size q := Py.len (enc q) in
     exists q,
       compress_image image_data (Some target_size_kb) quality
       = Ok (enc q, size q, q)
       /\ 1 <= q <= 100
       /\ (size 1 <= target -> size q <= target)
       /\ ((forall q', 1 <= q' <= 100 -> target < size q') ->
           q = 1 /\ target < size q)
       /\ ((forall q1 q2, 1 <= q1 -> q1 <= q2 -> q2 <= 100 -> size q1 <= size q2) ->
           target < size 1 -> q = 1 /\ target < size q))
  /\ (forall msg,
        (forall q, 1 <= q <= 100 -> save_jpeg img q = Raise msg) ->
        compress_image image_data (Some target_size_kb) quality
        = Raise ("Error compressing image: " ++ msg)%string)
  /\ (forall failure,
        compress_image image_data (Some target_size_kb) quality = Raise failure ->
        exists q msg,
          1 <= q <= 100 /\ save_jpeg img q = Raise msg
          /\ failure = ("Error compressing image: " ++ msg)%string).
Proof.
  intros Hopen Hflat Hkb target. split; [|split].
  - intros enc Henc size.
    destruct (search_within (save_jpeg img) enc target Henc 1 100 None)
      as [Hnone | (q & Hq & Hfit & Hres)]; try lia.
    + rewrite (compress_image_searched _ _ _ enc _ _ _ Hopen Hflat Hkb Henc Hnone).
      exists 1.
      pose proof (search_none_low (save_jpeg img) enc target Henc 1 100
                    ltac:(lia) ltac:(lia) ltac:(lia) Hnone) as Hover.
      fold (size 1) in Hover |- *.
      split; [reflexivity|]. split; [lia|]. split; [lia|]. split; auto.
    + rewrite (compress_image_searched _ _ _ enc _ _ _ Hopen Hflat Hkb Henc Hres).
      exists q. fold (size q) in Hfit |- *.
      split; [reflexivity|]. split; [exact Hq|]. split; [auto|]. split.
      * intros Hover. specialize (Hover q Hq). lia.
      * intros Hmono Hover. specialize (Hmono 1 q). lia.
  - intros msg Hrefused.
    rewrite (compress_image_decoded _ _ _ _ _ Hopen Hflat), (truthy_nonzero _ Hkb).
    rewrite (search_first_raises (save_jpeg img) (target_size_kb * 1024) 1 100
               None msg) by (try lia; apply Hrefused; vm_compute; split; discriminate).
    reflexivity.
  - intros failure.
    rewrite (compress_image_decoded _ _ _ _ _ Hopen Hflat), (truthy_nonzero _ Hkb).
    destruct (quality_search (save_jpeg img) (target_size_kb * 1024) 1 100 None)
      as [[r|]|msg] eqn:Hsearch; cbn [bind reraise].
    + discriminate.
    + unfold encoded.
      destruct (save_jpeg img 1) as [data|msg] eqn:Hsave; cbn [bind reraise];
        [discriminate|].
      intros Hfail. inversion Hfail.
      exists 1, msg. split; [lia|]. split; [exact Hsave | reflexivity].
    + intros Hfail. inversion Hfail.
      destruct (search_raise_from_save _ _ _ _ _ _ Hsearch) as (q & Hq & Hsave).
      exists q, msg. split; [exact Hq|]. split; [exact Hsave | reflexivity].
Qed.

Lemma compress_image_target_bound_witness :
  (exists q,
     @compress_image Toy.pil (Toy.png ToyFacts.picture) (Some 2) None
     = Ok (Toy.jpeg ToyFacts.picture q, Py.len (Toy.jpeg ToyFacts.picture q), q)
     /\ 1 <= q <= 100
     /\ Py.len (Toy.jpeg ToyFacts.picture q) <= 2 * 1024)
  /\ @compress_image Toy.pil (Toy.png ToyFacts.scan) (Some 2) None
     = Raise "Error compressing image: cannot write mode I;16 as JPEG".
Proof.
  split.
  - destruct (@compress_image_target_bound Toy.pil (Toy.png ToyFacts.picture)
                ToyFacts.picture ToyFacts.picture 2 None
                eq_refl eq_refl ltac:(lia))
        as [Hreturns _].
    destruct (Hreturns (Toy.jpeg ToyFacts.picture) (fun q _ => eq_refl))
      as (q & Hres & Hq & Hreach & _).
    exists q. split; [exact Hres|]. split; [exact Hq|].
    apply Hreach. vm_compute. discriminate.
  - apply (@compress_image_target_bound Toy.pil (Toy.png ToyFacts.scan)
             ToyFacts.scan ToyFacts.scan 2 None eq_refl eq_refl ltac:(lia)).
    intros q _. reflexivity.
Defined.

(** C1 fails as stated at a target of zero: the target is below the size of
    the quality-1 encoding, and what comes back is the encoding at quality
    85, not the one at quality 1. *)
Lemma compress_image_zero_target_quality_85 :
  0 * 1024 < Py.len (Toy.jpeg ToyFacts.picture 1)
  /\ @compress_image Toy.pil (Toy.png ToyFacts.picture) (Some 0) None
     = Ok (Toy.jpeg ToyFacts.picture 85, Py.len (Toy.jpeg ToyFacts.picture 85), 85)
  /\ @compress_image Toy.pil (Toy.png ToyFacts.picture) (Some 0) None
     <> Ok (Toy.jpeg ToyFacts.picture 1, Py.len (Toy.jpeg ToyFacts.picture 1), 1).
Proof.
  split; [vm_compute; reflexivity|].
  rewrite (@compress_image_zero_target Toy.pil (Toy.png ToyFacts.picture)
             ToyFacts.picture ToyFacts.picture eq_refl eq_refl).
  split; [reflexivity|].
  intros Heq. apply (f_equal (fun r => match r with
                                       | Ok (_, _, q) => q
                                       | Raise _ => 0
                                       end)) in Heq.
  simpl in Heq. discriminate.
Qed.

(** ** [resize_image] *)











Lemma resize_image_decoded {pil : PIL} (image_data : Py.bytes)
  (img : Image) (width height percentage max_width max_height : option Z)
  (new_width new_height : Z) :
  Image_open image_data = Ok img ->
  new_size (img_width img) (img_height img)
    width height percentage max_width max_height = Ok (new_width, new_height) ->
  resize_image image_data width height percentage max_width max_height
  = reraise "Error resizing image: " (
      resized_img <- resize img new_width new_height ;;
      output <- save_png resized_img ;;
      Ok (output, new_width, new_height)).
Proof.
  intros Hopen Hsize. unfold resize_image.
  rewrite Hopen. cbn [bind]. rewrite Hsize. reflexivity.
Qed.

(** Once the new sides are computed, [resize_image] returns them with what
    Pillow's resizing and PNG encoder give, and returns nothing else. *)
Lemma resize_image_sized {pil : PIL} (image_data : Py.bytes)
  (img : Image) (width height percentage max_width max_height : option Z)
  (new_width new_height : Z) :
  Image_open image_data = Ok img ->
  new_size (img_width img) (img_height img)
    width height percentage max_width max_height = Ok (new_width, new_height) ->
  (forall resized output,
     resize img new_width new_height = Ok resized ->
     save_png resized = Ok output ->
     resize_image image_data width height percentage max_width max_height
     = Ok (output, new_width, new_height))
  /\ (forall output w h,
        resize_image image_data width height percentage max_width max_height
        = Ok (output, w, h) ->
        w = new_width /\ h = new_height
        /\ exists resized,
             resize img new_width new_height = Ok resized
             /\ save_png resized = Ok output).
Proof.
  intros Hopen Hsize.
  rewrite (resize_image_decoded _ _ _ _ _ _ _ _ _ Hopen Hsize). split.
  - intros resized output Hres Hsave. rewrite Hres. cbn [bind].
    rewrite Hsave. reflexivity.
  - intros output w h.
    destruct (resize img new_width new_height) as [resized|]; cbn [bind reraise];
      [|discriminate].
    destruct (save_png resized) as [data|] eqn:Hsave; cbn [bind reraise];
      [|discriminate].
    intros Hret. inversion Hret; subst.
    split; [reflexivity|]. split; [reflexivity|].
    exists resized. split; [reflexivity | exact Hsave].
Qed.

(** What [img.resize] returns has the sides asked for. *)
Lemma resize_size {pil : PIL} (img resized : Image) (w h : Z) :
  resize img w h = Ok resized ->
  img_width resized = w /\ img_height resized = h.
Proof.
  unfold resize.
  destruct (Z.eqb_spec w (img_width img)) as [Hw|];
    [destruct (Z.eqb_spec h (img_height img)) as [Hh|]|]; cbn [andb].
  - intros Hres. inversion Hres; subst resized. split; congruence.
  - destruct ((w <? 1) || (h <? 1)); [discriminate | apply resample_size].
  - destruct ((w <? 1) || (h <? 1)); [discriminate | apply resample_size].
Qed.


Module ResizeFacts.
Import Toy.

Definition sized_picture (w h : nat) : timage :=
  {| t_width := w; t_height := h; t_mode := "RGB"; t_format := "PNG" |}.

End ResizeFacts.



(** Following the claim's words: the image is within the box when
    [min(max_w / sw, max_h / sh) >= 1], the quotients and the comparison
    being Python's; with one bound given, the condition is on the one
    quotient. *)
Definition within_box (sw sh : Z) (max_width max_height : option Z) : Prop :=
  match Py.truthy max_width, Py.truthy max_height with
  | Some max_w, Some max_h =>
      exists a b, Py.int_truediv max_w sw = Ok a
                  /\ Py.int_truediv max_h sh = Ok b
                  /\ PrimFloat.leb 1%float (Py.min a b) = true
  | Some max_w, None =>
      exists a, Py.int_truediv max_w sw = Ok a /\ PrimFloat.leb 1%float a = true
  | None, Some max_h =>
      exists b, Py.int_truediv max_h sh = Ok b /\ PrimFloat.leb 1%float b = true
  | None, None => False
  end.

(** Within the box the new sides are the image's own. *)
Lemma new_size_within_box (sw sh : Z)
  (width height percentage max_width max_height : option Z) :
  Py.truthy percentage = None ->
  Py.truthy width = None ->
  Py.truthy height = None ->
  within_box sw sh max_width max_height ->
  new_size sw sh width height percentage max_width max_height = Ok (sw, sh).
Proof.
  intros Hp Hw Hh Hbox. unfold new_size. rewrite Hp, Hw, Hh.
  unfold within_box in Hbox. unfold box_scale.
  destruct (Py.truthy max_width) as [mw|], (Py.truthy max_height) as [mh|].
  - destruct Hbox as (a & b & Ha & Hb & Hge).
    rewrite Ha. cbn [bind]. rewrite Hb. cbn [bind]. rewrite Hge. reflexivity.
  - destruct Hbox as (a & Ha & Hge). rewrite Ha. cbn [bind]. rewrite Hge.
    reflexivity.
  - destruct Hbox as (b & Hb & Hge). rewrite Hb. cbn [bind]. rewrite Hge.
    reflexivity.
  - contradiction.
Qed.

(** C8 (as amended). In bounding-box mode, an image within the box is not
    resampled: it is written as PNG as it is, and comes back with its own
    sides [(sw, sh)] whenever Pillow writes it; when Pillow refuses to (a
    CMYK image), the call raises. No other sides are ever returned: a box
    larger than the image never enlarges it. *)
Theorem resize_bounding_box_keeps_size {pil : PIL} (image_data : Py.bytes)
  (img : Image) (width height percentage max_width max_height : option Z) :
  Image_open image_data = Ok img ->
  Py.truthy percentage = None ->
  Py.truthy width = None ->
  Py.truthy height = None ->
  within_box (img_width img) (img_height img) max_width max_height ->
  (forall output,
     save_png img = Ok output ->
     resize_image image_data width height percentage max_width max_height
     = Ok (output, img_width img, img_height img))
  /\ (forall msg,
        save_png img = Raise msg ->
        resize_image image_data width height percentage max_width max_height
        = Raise ("Error resizing image: " ++ msg)%string)
  /\ (forall output w h,
        resize_image image_data width height percentage max_width max_height
        = Ok (output, w, h) ->
        w = img_width img /\ h = img_height img /\ save_png img = Ok output).
Proof.
  intros Hopen Hp Hw Hh Hbox.
  pose proof (new_size_within_box _ _ _ _ _ _ _ Hp Hw Hh Hbox) as Hsize.
  rewrite (resize_image_decoded _ _ _ _ _ _ _ _ _ Hopen Hsize).
  unfold resize. rewrite !Z.eqb_refl. cbn [andb bind].
  split; [|split].
  - intros output Hsave. rewrite Hsave. reflexivity.
  - intros msg Hsave. rewrite Hsave. reflexivity.
  - intros output w h. destruct (save_png img) as [data|]; cbn [bind reraise];
      [|discriminate].
    intros Hret. inversion Hret. repeat split.
Qed.

Lemma resize_bounding_box_keeps_size_witness :
  @resize_image Toy.pil (Toy.png (ResizeFacts.sized_picture 300 100))
    None None None (Some 1920) (Some 1080)
  = Ok (Toy.png (ResizeFacts.sized_picture 300 100), 300, 100).
Proof.
  apply (@resize_bounding_box_keeps_size Toy.pil
           (Toy.png (ResizeFacts.sized_picture 300 100))
           (ResizeFacts.sized_picture 300 100) None None None
           (Some 1920) (Some 1080)).
  - reflexivity.
  - reflexivity.
  - reflexivity.
  - reflexivity.
  - eexists. eexists. split; [vm_compute; reflexivity|].
    split; [vm_compute; reflexivity|]. vm_compute. reflexivity.
  - reflexivity.
Defined.

(** C8 fails as stated on a CMYK picture: it decodes, its sides of
    300 x 100 are within the box of 1920 x 1080 and within what the
    validator accepts, and the call raises instead of returning them. *)
Lemma resize_bounding_box_cmyk_raises :
  Toy.open (Toy.jpeg ToyFacts.press 10) = Ok ToyFacts.press
  /\ @validate_image_file Toy.pil (Toy.jpeg ToyFacts.press 10) "press.jpg"
       10485760 (Some ["jpg"; "jpeg"; "png"; "webp"]) = Ok true
  /\ within_box 300 100 (Some 1920) (Some 1080)
  /\ @resize_image Toy.pil (Toy.jpeg ToyFacts.press 10)
       None None None (Some 1920) (Some 1080)
     = Raise "Error resizing image: cannot write mode CMYK as PNG".
Proof.
  split; [vm_compute; reflexivity|].
  split; [vm_compute; reflexivity|].
  split.
  - eexists. eexists. split; [vm_compute; reflexivity|].
    split; [vm_compute; reflexivity|]. vm_compute. reflexivity.
  - vm_compute. reflexivity.
Qed.

(** ** [add_blur_borders] *)

(** What [add_blur_borders] returns decodes to the sides asked for. *)
Lemma add_blur_borders_canvas_size {pil : PIL} (image_data output : Py.bytes)
  (target_width target_height blur_amount : Z) :
  add_blur_borders image_data target_width target_height blur_amount = Ok output ->
  exists canvas,
    Image_open output = Ok canvas
    /\ img_width canvas = target_width /\ img_height canvas = target_height.
Proof.
  unfold add_blur_borders, reraise. intros H.
  repeat match type of H with
         | match bind ?r _ with _ => _ end = _ =>
             let x := fresh "x" in
             destruct r as [x|] eqn:?; simpl bind in H; [|discriminate]
         | match (let (_, _) := ?p in _) with _ => _ end = _ =>
             destruct p
         end.
  match type of H with
  | match save_png ?c with _ => _ end = _ =>
      destruct (save_png c) as [data|] eqn:Hsave; [|discriminate];
      inversion H; subst data; clear H;
      destruct (open_png c output Hsave) as (canvas & Hopen & Hw & Hh)
  end.
  match goal with
  | Hnew : Image_new _ _ _ _ = Ok ?c |- _ =>
      unfold Image_new in Hnew;
      destruct (Z.ltb_spec target_width 0); [discriminate|];
      destruct (Z.ltb_spec target_height 0); [discriminate|];
      simpl in Hnew; inversion Hnew; subst c
  end.
  exists canvas. split; [exact Hopen|].
  rewrite Hw, Hh.
  repeat match goal with
         | |- context [img_width (paste_at ?c ?i ?xy ?m)] =>
             rewrite (proj1 (paste_size c i xy m))
         | |- context [img_height (paste_at ?c ?i ?xy ?m)] =>
             rewrite (proj2 (paste_size c i xy m))
         end.
  apply blank_size; lia.
Qed.

(** C3 at the failing input: a 4000 x 1 image asked onto a 1080 x 1080
    canvas. The sharp layer would be [int(1080 / 4000.0) = 0] pixels high,
    Pillow refuses to resize to it, and the call raises. *)
Theorem add_blur_borders_banner_raises {pil : PIL} (image_data : Py.bytes)
  (img : Image) (blur_amount : Z) :
  Image_open image_data = Ok img ->
  img_width img = 4000 ->
  img_height img = 1 ->
  add_blur_borders image_data 1080 1080 blur_amount
  = Raise "Error processing blur: height and width must be > 0".
Proof.
  intros Hopen Hw Hh. unfold add_blur_borders, resize.
  rewrite Hopen. simpl bind. rewrite Hw, Hh.
  vm_compute. reflexivity.
Qed.

Lemma add_blur_borders_banner_raises_witness :
  @add_blur_borders Toy.pil (Toy.png ToyFacts.banner) 1080 1080 30
  = Raise "Error processing blur: height and width must be > 0".
Proof.
  apply (@add_blur_borders_banner_raises Toy.pil (Toy.png ToyFacts.banner)
           ToyFacts.banner 30); reflexivity.
Defined.

(** ** The validators *)

(** No character of [s] is [c]. *)
Fixpoint lacks (c : ascii) (s : string) : bool :=
  match s with
  | EmptyString => true
  | String a s' => negb (Ascii.eqb a c) && lacks c s'
  end.

Lemma lacks_append (c : ascii) (s1 s2 : string) :
  lacks c (s1 ++ s2) = lacks c s1 && lacks c s2.
Proof.
  induction s1 as [|a s1 IH]; simpl; [reflexivity|].
  rewrite IH, andb_assoc. reflexivity.
Qed.

Lemma contains_lacks (c : ascii) (needle hay : string) :
  lacks c hay = true -> Py.contains (String c needle) hay = false.
Proof.
  induction hay as [|a hay IH]; intros Hl; [reflexivity|].
  simpl in Hl. apply andb_true_iff in Hl as [Ha Hrest].
  apply negb_true_iff, Ascii.eqb_neq in Ha.
  simpl. destruct (ascii_dec c a) as [Heq | Hne]; [congruence|].
  apply IH. exact Hrest.
Qed.

Lemma digits_lack_c (d : Decimal.uint) :
  lacks "c" (NilEmpty.string_of_uint d) = true.
Proof. induction d; simpl; auto. Qed.

Lemma str_of_int_lacks_c (z : Z) : lacks "c" (Py.str_of_int z) = true.
Proof.
  unfold Py.str_of_int, NilZero.string_of_int, NilZero.string_of_uint.
  destruct (Z.to_int z) as [d | d]; destruct d; simpl;
    try reflexivity; apply digits_lack_c.
Qed.

(** The size message never reads as Pillow's "cannot identify image
    file". *)
Lemma size_message_kept (z : Z) :
  Py.contains "cannot identify image file"
    ("File size exceeds maximum allowed size of " ++ Py.str_of_int z ++ "MB")
  = false.
Proof.
  simpl.
  apply contains_lacks. rewrite lacks_append, str_of_int_lacks_c. reflexivity.
Qed.

Lemma gtb_le (a b : Z) : a <= b -> (a >? b) = false.
Proof. intros H. rewrite Z.gtb_ltb. apply Z.ltb_ge. lia. Qed.

Lemma gtb_lt (a b : Z) : b < a -> (a >? b) = true.
Proof. intros H. rewrite Z.gtb_ltb. apply Z.ltb_lt. lia. Qed.

(** The extension test of [validate_image_file]. *)
Definition image_extension_allowed (filename : string)
  (allowed_extensions : option (list string)) : bool :=
  extension_allowed (fun f => Py.lstrip_dot (Py.lower (Py.splitext_ext f)))
    filename allowed_extensions.

(** The extension test of [validate_file_upload]. *)
Definition upload_extension_allowed (filename : string)
  (allowed_extensions : option (list string)) : bool :=
  extension_allowed (fun f => Py.after_last "." (Py.lower f))
    filename allowed_extensions.

(** C9 (as amended). A buffer of zero bytes is within every size limit
    that is not negative, a limit of 0 included: [validate_image_file]
    raises the size error on it only under a negative [max_size], and under
    every [max_size >= 0], the extension test passing or not applying, it
    fails at the decoding step with "Invalid image file". *)
Theorem validate_empty_buffer {pil : PIL} (filename : string) (max_size : Z)
  (allowed_extensions : option (list string)) :
  (max_size < 0 ->
   validate_image_file [] filename max_size allowed_extensions
   = Raise ("File size exceeds maximum allowed size of "
            ++ Py.str_of_int (max_size / (1024 * 1024)) ++ "MB"))
  /\ (0 <= max_size ->
      image_extension_allowed filename allowed_extensions = true ->
      validate_image_file [] filename max_size allowed_extensions
      = Raise "Invalid image file").
Proof.
  unfold validate_image_file, image_extension_allowed. split.
  - intros Hneg.
    rewrite (gtb_lt (Py.len []) max_size Hneg).
    cbn [raise_if bind]. rewrite size_message_kept. reflexivity.
  - intros Hmax Hext.
    rewrite (gtb_le (Py.len []) max_size Hmax).
    rewrite Hext. cbn [raise_if bind negb].
    destruct open_empty as (msg & Hopen & Hmsg).
    rewrite Hopen. cbn [bind]. rewrite Hmsg. reflexivity.
Qed.

Lemma validate_empty_buffer_witness :
  @validate_image_file Toy.pil [] "photo.png" (-1) (Some ["png"])
  = Raise "File size exceeds maximum allowed size of -1MB"
  /\ @validate_image_file Toy.pil [] "photo.png" 10485760 (Some ["jpg"; "png"])
     = Raise "Invalid image file".
Proof.
  split.
  - apply (@validate_empty_buffer Toy.pil "photo.png" (-1) (Some ["png"])). lia.
  - apply (@validate_empty_buffer Toy.pil "photo.png" 10485760 (Some ["jpg"; "png"])).
    + lia.
    + reflexivity.
Defined.

(** C9 fails as stated at [max_size = 0]: the empty buffer passes the size
    test, and the failure is the one of the decoding step. *)
Lemma validate_empty_buffer_limit_zero :
  @validate_image_file Toy.pil [] "photo.png" 0 (Some ["png"])
  = Raise "Invalid image file"
  /\ @validate_image_file Toy.pil [] "photo.png" 0 None
     = Raise "Invalid image file".
Proof. split; vm_compute; reflexivity. Qed.

(** C4 at the failing input. [validate_image_file] makes no signature
    test: a buffer within the size limit, with an allowed extension, that
    Pillow decodes to an image of sides 1..4000 is accepted, whatever its
    first bytes. *)
Theorem validate_image_file_ignores_signature {pil : PIL}
  (file_data : Py.bytes) (filename : string) (max_size : Z)
  (allowed_extensions : option (list string)) (img : Image) :
  Py.len file_data <= max_size ->
  image_extension_allowed filename allowed_extensions = true ->
  Image_open file_data = Ok img ->
  verify img = Ok tt ->
  1 <= img_width img <= 4000 ->
  1 <= img_height img <= 4000 ->
  validate_image_file file_data filename max_size allowed_extensions = Ok true.
Proof.
  intros Hsize Hext Hopen Hverify Hw Hh.
  unfold validate_image_file. unfold image_extension_allowed in Hext.
  rewrite (gtb_le _ _ Hsize).
  rewrite Hext, Hopen. cbn [raise_if bind negb]. rewrite Hverify. cbn [bind].
  replace (img_width img <? 1) with false by (symmetry; apply Z.ltb_ge; lia).
  replace (img_height img <? 1) with false by (symmetry; apply Z.ltb_ge; lia).
  rewrite (gtb_le (img_width img) 4000), (gtb_le (img_height img) 4000) by lia.
  reflexivity.
Qed.

(** A BMP file named [photo.png]: it starts with none of the signatures,
    [validate_image_file] accepts it and [validate_file_upload] refuses
    it. *)
Lemma validate_image_file_ignores_signature_witness :
  Security.is_valid_image (Toy.bmp ToyFacts.picture) = false
  /\ @validate_image_file Toy.pil (Toy.bmp ToyFacts.picture) "photo.png"
       10485760 (Some ["jpg"; "jpeg"; "png"; "webp"])
     = Ok true
  /\ Security.validate_file_upload (Toy.bmp ToyFacts.picture) "photo.png"
       10485760 (Some ["jpg"; "jpeg"; "png"; "webp"])
     = Raise "Invalid file format".
Proof.
  split; [reflexivity|]. split; [|reflexivity].
  apply (@validate_image_file_ignores_signature Toy.pil
           (Toy.bmp ToyFacts.picture) "photo.png" 10485760
           (Some ["jpg"; "jpeg"; "png"; "webp"])
           {| Toy.t_width := 64; Toy.t_height := 64;
              Toy.t_mode := "RGB"; Toy.t_format := "BMP" |}).
  - vm_compute. discriminate.
  - reflexivity.
  - reflexivity.
  - reflexivity.
  - vm_compute. split; discriminate.
  - vm_compute. split; discriminate.
Defined.

(** The sibling validator does what C4 says: after the size and extension
    tests, a buffer that starts with none of the five signatures is
    refused, and an accepted buffer has passed both tests. *)
Lemma validate_file_upload_checks_signature (file_data : Py.bytes)
  (filename : string) (max_size : Z) (allowed_extensions : option (list string)) :
  (Py.len file_data <= max_size ->
   upload_extension_allowed filename allowed_extensions = true ->
   Security.is_valid_image file_data = false ->
   Security.validate_file_upload file_data filename max_size allowed_extensions
   = Raise "Invalid file format")
  /\ (Security.validate_file_upload file_data filename max_size allowed_extensions
      = Ok true ->
      upload_extension_allowed filename allowed_extensions = true
      /\ Security.is_valid_image file_data = true).
Proof.
  unfold Security.validate_file_upload, upload_extension_allowed. split.
  - intros Hsize Hext Hmagic.
    rewrite (gtb_le _ _ Hsize).
    rewrite Hext, Hmagic. reflexivity.
  - destruct (Py.len file_data >? max_size); [discriminate|].
    destruct (extension_allowed _ filename allowed_extensions); [|discriminate].
    destruct (Security.is_valid_image file_data); [|discriminate].
    intros _. split; reflexivity.
Qed.

Lemma is_valid_image_signatures (file_data : Py.bytes) :
  Security.is_valid_image file_data = true <->
  exists magic, In magic
                  [ [Byte.xff; Byte.xd8; Byte.xff];
                    [Byte.x89; Byte.x50; Byte.x4e; Byte.x47;
                     Byte.x0d; Byte.x0a; Byte.x1a; Byte.x0a];
                    Security.bytes_of "GIF87a"; Security.bytes_of "GIF89a";
                    Security.bytes_of "RIFF" ]
                /\ Py.startswith file_data magic = true.
Proof.
  unfold Security.is_valid_image. rewrite existsb_exists. split.
  - intros ((magic & ext) & Hin & Hstart). exists magic. split; [|exact Hstart].
    apply (in_map fst) in Hin. exact Hin.
  - intros (magic & Hin & Hstart).
    apply (in_map_iff fst Security.magic_bytes magic) in Hin
      as ((magic' & ext) & Heq & Hin).
    exists (magic', ext). simpl in Heq. subst magic'. split; assumption.
Qed.

(** ** [process_pack] *)

(** The method of an entry is one [process_pack] dispatches on. *)
Definition recognized (output : output_spec) : bool :=
  let method := get (o_method output) "blur" in
  String.eqb method "blur" || String.eqb method "resize".

(** The transformation and the compression of an entry both succeed, or the
    entry is skipped. *)
Definition goes_through {pil : PIL} (image_data : Py.bytes)
  (output : output_spec) : bool :=
  match transform image_data output with
  | Some (Ok processed_data) =>
      is_ok (compress_stage processed_data (get (o_compress output) false)
               (o_compress_target output))
  | Some (Raise _) => false
  | None => true
  end.

(** A result carries the name and the declared sides of its entry, and the
    size of its own data. *)
Definition made_from (output : output_spec) (r : pack_result) : Prop :=
  r_name r = get (o_name output) "output"
  /\ r_width r = o_width output
  /\ r_height r = o_height output
  /\ r_size r = Py.len (r_data r).

(** The data of a result is what the compression step made of the
    transformed image. *)
Definition produced {pil : PIL} (image_data : Py.bytes) (output : output_spec)
  (r : pack_result) : Prop :=
  exists processed_data,
    transform image_data output = Some (Ok processed_data)
    /\ compress_stage processed_data (get (o_compress output) false)
         (o_compress_target output) = Ok (r_data r).


Definition map_result {A B : Type} (f : A -> B) (r : result A) : result B :=
  match r with
  | Ok a => Ok (f a)
  | Raise msg => Raise msg
  end.

Section Pack.

Context {pil : PIL}.

Lemma transform_recognized (image_data : Py.bytes) (output : output_spec) :
  transform image_data output = None <-> recognized output = false.
Proof.
  unfold transform, recognized.
  destruct (String.eqb (get (o_method output) "blur") "blur");
    [simpl; split; discriminate|].
  destruct (String.eqb (get (o_method output) "blur") "resize");
    simpl; split; try discriminate; reflexivity.
Qed.

(** Entries of an unrecognized method leave no trace in the loop. *)
Lemma pack_loop_skips (now : nat -> datetime) (image_data : Py.bytes)
  (outs : list output_spec) :
  forall tick results,
    pack_loop now image_data (filter recognized outs) tick results
    = pack_loop now image_data outs tick results.
Proof.
  induction outs as [|output rest IH]; intros tick results; [reflexivity|].
  cbn [filter].
  destruct (recognized output) eqn:Hrec.
  - cbn [pack_loop].
    destruct (transform image_data output) as [[processed_data|msg]|];
      [|reflexivity|apply IH].
    destruct (compress_stage _ _ _); [apply IH | reflexivity].
  - cbn [pack_loop].
    rewrite (proj2 (transform_recognized image_data output) Hrec). apply IH.
Qed.

Lemma pack_loop_results (now : nat -> datetime) (image_data : Py.bytes)
  (outs : list output_spec) :
  forallb (goes_through image_data) outs = true ->
  forall tick results,
    exists new,
      pack_loop now image_data outs tick results = Ok (results ++ new)%list
      /\ Forall2 made_from (filter recognized outs) new.
Proof.
  induction outs as [|output rest IH]; intros Hall tick results.
  - exists []. rewrite app_nil_r. split; [reflexivity | constructor].
  - cbn [forallb] in Hall. apply andb_true_iff in Hall as [Hone Hrest].
    cbn [pack_loop filter]. unfold goes_through in Hone.
    destruct (recognized output) eqn:Hrec.
    + destruct (transform image_data output) as [[processed_data|msg]|] eqn:Htr;
        [|discriminate|].
      * destruct (compress_stage _ _ _) as [compressed|] eqn:Hc; [|discriminate].
        destruct (IH Hrest (S tick)
                    (results ++
                     [ {| r_data := compressed;
                          r_filename :=
                            (get (o_name output) "output" ++ "_"
                             ++ strftime (now tick) ++ ".png")%string;
                          r_width := o_width output;
                          r_height := o_height output;
                          r_size := Py.len compressed;
                          r_name := get (o_name output) "output" |} ])%list)
          as (new & Hloop & Hmade).
        eexists. rewrite Hloop, <- app_assoc. split; [reflexivity|].
        constructor; [|exact Hmade]. repeat split.
      * apply transform_recognized in Htr. congruence.
    + rewrite (proj2 (transform_recognized image_data output) Hrec).
      apply IH. exact Hrest.
Qed.



(** An entry that does not go through makes the loop raise. *)
Lemma pack_loop_raises (now : nat -> datetime) (image_data : Py.bytes)
  (outs : list output_spec) :
  forallb (goes_through image_data) outs = false ->
  forall tick results,
    exists msg, pack_loop now image_data outs tick results = Raise msg.
Proof.
  induction outs as [|output rest IH]; intros Hsome tick results;
    [discriminate|].
  cbn [forallb] in Hsome. cbn [pack_loop]. unfold goes_through in Hsome.
  destruct (transform image_data output) as [[processed_data|msg]|];
    [|eauto|apply IH; exact Hsome].
  destruct (compress_stage _ _ _); [apply IH; exact Hsome | eauto].
Qed.

(** What the loop appends comes, entry by entry, from the transformation
    of the entry followed by its compression step. *)
Lemma pack_loop_produced (now : nat -> datetime) (image_data : Py.bytes)
  (outs : list output_spec) :
  forall tick results final,
    pack_loop now image_data outs tick results = Ok final ->
    exists new,
      final = (results ++ new)%list
      /\ Forall2 (produced image_data) (filter recognized outs) new.
Proof.
  induction outs as [|output rest IH]; intros tick results final Hloop.
  - simpl in Hloop. inversion Hloop; subst final. exists [].
    rewrite app_nil_r. split; [reflexivity | constructor].
  - cbn [pack_loop] in Hloop. cbn [filter].
    destruct (transform image_data output) as [[processed_data|msg]|] eqn:Htr;
      [|discriminate|].
    + assert (Hrec : recognized output = true).
      { destruct (recognized output) eqn:Hrec; [reflexivity|].
        apply (transform_recognized image_data) in Hrec. congruence. }
      rewrite Hrec.
      destruct (compress_stage _ _ _) as [compressed|] eqn:Hc; [|discriminate].
      destruct (IH _ _ _ Hloop) as (new & Hfinal & Hmade).
      rewrite <- app_assoc in Hfinal.
      eexists. split; [exact Hfinal|].
      constructor; [|exact Hmade].
      exists processed_data. split; [exact Htr | exact Hc].
    + rewrite (proj1 (transform_recognized image_data output) Htr).
      apply (IH _ _ _ Hloop).
Qed.



End Pack.

Module PackFacts.

Definition photo : Toy.timage := ResizeFacts.sized_picture 800 600.

Definition square : output_spec :=
  {| o_name := Some "square"; o_width := Some 1080; o_height := Some 1080;
     o_method := Some "blur"; o_compress := None; o_compress_target := None |}.
Definition odd : output_spec :=
  {| o_name := Some "odd"; o_width := Some 10; o_height := Some 10;
     o_method := Some "sharpen"; o_compress := None; o_compress_target := None |}.
Definition thumb : output_spec :=
  {| o_name := Some "thumb"; o_width := Some 400; o_height := Some 400;
     o_method := Some "resize"; o_compress := Some true;
     o_compress_target := Some 500 |}.

Definition config : pack_config := {| outputs := Some [square; odd; thumb] |}.

End PackFacts.

(** C5 (as amended). [process_pack] treats a configuration as the same
    configuration without its entries of unrecognized method. When every
    entry of method 'blur' or 'resize' goes through its transformation and
    its compression, the call returns one result for each of them, in the
    order of the [outputs] list, carrying that entry's name and declared
    sides; and when one of them does not, the call raises and returns no
    result at all. *)
Theorem process_pack_one_result_per_recognized {pil : PIL}
  (now : nat -> datetime) (image_data : Py.bytes) (config : pack_config) :
  let outs := get (outputs config) [] in
  process_pack now image_data {| outputs := Some (filter recognized outs) |}
  = process_pack now image_data config
  /\ (forallb (goes_through image_data) outs = true ->
      exists results,
        process_pack now image_data config = Ok results
        /\ Forall2 made_from (filter recognized outs) results
        /\ List.length results = List.length (filter recognized outs))
  /\ (forallb (goes_through image_data) outs = false ->
      exists msg, process_pack now image_data config = Raise msg).
Proof.
  intros outs. unfold process_pack. split; [|split].
  - cbn [outputs get]. fold outs. rewrite pack_loop_skips. reflexivity.
  - intros Hall.
    destruct (pack_loop_results now image_data outs Hall 0%nat [])
      as (new & Hloop & Hmade).
    fold outs. rewrite Hloop. exists new. split; [reflexivity|].
    split; [exact Hmade|]. symmetry. apply (Forall2_length Hmade).
  - intros Hsome.
    destruct (pack_loop_raises now image_data outs Hsome 0%nat []) as [msg Hloop].
    fold outs. rewrite Hloop. eexists. reflexivity.
Qed.

Lemma process_pack_one_result_per_recognized_witness :
  (exists results,
     @process_pack Toy.pil Toy.ticking (Toy.png PackFacts.photo) PackFacts.config
     = Ok results
     /\ Forall2 made_from [PackFacts.square; PackFacts.thumb] results
     /\ List.length results = 2%nat)
  /\ exists msg,
       @process_pack Toy.pil Toy.ticking (Toy.png ToyFacts.scan) PackFacts.config
       = Raise msg.
Proof.
  split.
  - apply (@process_pack_one_result_per_recognized Toy.pil Toy.ticking
             (Toy.png PackFacts.photo) PackFacts.config).
    vm_compute. reflexivity.
  - apply (@process_pack_one_result_per_recognized Toy.pil Toy.ticking
             (Toy.png ToyFacts.scan) PackFacts.config).
    vm_compute. reflexivity.
Defined.

(** C5 fails as stated on a banner of 4000 x 1, which the validator
    accepts: with two well-formed entries of recognized method, the call
    returns no result for either, it raises. *)
Lemma process_pack_banner_raises :
  @validate_image_file Toy.pil (Toy.png ToyFacts.banner) "banner.png" 10485760
    (Some ["jpg"; "jpeg"; "png"; "webp"]) = Ok true
  /\ map recognized [PackFacts.square; PackFacts.thumb] = [true; true]
  /\ @process_pack Toy.pil Toy.frozen (Toy.png ToyFacts.banner)
       {| outputs := Some [PackFacts.square; PackFacts.thumb] |}
     = Raise ("Error processing pack: Error processing blur: "
              ++ "height and width must be > 0").
Proof.
  split; [vm_compute; reflexivity|]. split; [reflexivity|].
  vm_compute. reflexivity.
Qed.





(** *** The compression target of an entry *)

Lemma encoded_returned {pil : PIL} (img : Image) (q : Z) (r : best) :
  encoded img q = Ok r ->
  let '(data, size, quality) := r in
  save_jpeg img q = Ok data /\ size = Py.len data /\ quality = q.
Proof.
  unfold encoded. destruct (save_jpeg img q) as [data|]; cbn [bind];
    [|discriminate].
  intros Hret. inversion Hret. repeat split.
Qed.

(** What [compress_image] returns, by branch. *)
Lemma compress_image_returned {pil : PIL} (image_data : Py.bytes)
  (target_size_kb quality : option Z) (r : best) :
  compress_image image_data target_size_kb quality = Ok r ->
  exists img0 img,
    Image_open image_data = Ok img0 /\ flatten img0 = Ok img
    /\ match Py.truthy target_size_kb with
       | Some kb =>
           exists found,
             quality_search (save_jpeg img) (kb * 1024) 1 100 None = Ok found
             /\ match found with
                | Some best_result => best_result = r
                | None => encoded img 1 = Ok r
                end
       | None => encoded img (get (Py.truthy quality) 85) = Ok r
       end.
Proof.
  unfold compress_image.
  destruct (Image_open image_data) as [img0|]; cbn [bind reraise]; [|discriminate].
  destruct (flatten img0) as [img|] eqn:Hflat; cbn [bind reraise]; [|discriminate].
  intros Hret. exists img0, img. split; [reflexivity|]. split; [exact Hflat|].
  destruct (Py.truthy target_size_kb) as [kb|].
  - destruct (quality_search (save_jpeg img) (kb * 1024) 1 100 None)
      as [found|]; cbn [bind reraise] in Hret; [|discriminate].
    exists found. split; [reflexivity|].
    destruct found as [best_result|].
    + inversion Hret. reflexivity.
    + destruct (encoded img 1); [inversion Hret; reflexivity | discriminate].
  - destruct (Py.truthy quality) as [q|]; cbn [get];
      (destruct (encoded img _); [inversion Hret; reflexivity | discriminate]).
Qed.

(** The compression step of [process_pack] under a target of [t] bytes. *)
Lemma compress_stage_target {pil : PIL} (processed_data data : Py.bytes) (t : Z) :
  compress_stage processed_data true (Some t) = Ok data ->
  exists img0 img,
    Image_open processed_data = Ok img0 /\ flatten img0 = Ok img
    /\ (0 <= t < 1024 -> save_jpeg img 85 = Ok data)
    /\ (t / 1024 <> 0 ->
        exists found,
          quality_search (save_jpeg img) (t / 1024 * 1024) 1 100 None = Ok found
          /\ match found with
             | Some (compressed_data, _, _) => data = compressed_data
             | None => save_jpeg img 1 = Ok data
             end).
Proof.
  unfold compress_stage.
  assert (Hcall : forall kb q,
            (' (processed_data, _, _) <- compress_image processed_data kb q ;;
             Ok processed_data) = Ok data ->
            exists size quality,
              compress_image processed_data kb q = Ok (data, size, quality)).
  { intros kb q. destruct (compress_image processed_data kb q) as [[[d n] ql]|];
      cbn [bind]; [|discriminate].
    intros Hret. inversion Hret. eauto. }
  destruct (Z.eq_dec t 0) as [-> | Ht].
  - cbn [Py.truthy Z.eqb]. intros Hret.
    destruct (Hcall _ _ Hret) as (size & quality & Hc).
    destruct (compress_image_returned _ _ _ _ Hc)
      as (img0 & img & Hopen & Hflat & Henc).
    cbn in Henc. apply encoded_returned in Henc as (Hsave & _ & _).
    exists img0, img. split; [exact Hopen|]. split; [exact Hflat|].
    split; [intros _; exact Hsave|]. intros Hq. exfalso. apply Hq. reflexivity.
  - rewrite (truthy_nonzero _ Ht). intros Hret.
    destruct (Hcall _ _ Hret) as (size & quality & Hc).
    destruct (compress_image_returned _ _ _ _ Hc)
      as (img0 & img & Hopen & Hflat & Henc).
    exists img0, img. split; [exact Hopen|]. split; [exact Hflat|].
    destruct (Z.eq_dec (t / 1024) 0) as [Hzero | Hq].
    + rewrite Hzero in Henc. cbn in Henc.
      apply encoded_returned in Henc as (Hsave & _ & _).
      split; [intros _; exact Hsave|]. intros Hq. contradiction.
    + rewrite (truthy_nonzero _ Hq) in Henc.
      destruct Henc as (found & Hfound & Hbest).
      split.
      * intros Hsmall. rewrite (Z.div_small _ _ Hsmall) in Hq. contradiction.
      * intros _. exists found. split; [exact Hfound|].
        destruct found as [[[d n] ql]|].
        -- inversion Hbest. reflexivity.
        -- apply encoded_returned in Hbest as (Hsave & _ & _). exact Hsave.
Qed.

(** The data of the result of an entry that asks for compression under a
    target of [t] bytes: with [t] in 0..1023 the encoding at quality 85 of
    the transformed image; with [t // 1024] other than zero what the search
    against [(t // 1024) * 1024] bytes found, or the encoding at quality 1
    when it found nothing. *)
Definition compressed_to_kib {pil : PIL} (image_data : Py.bytes)
  (output : output_spec) (r : pack_result) : Prop :=
  forall t,
    get (o_compress output) false = true ->
    o_compress_target output = Some t ->
    exists processed_data img0 img,
      transform image_data output = Some (Ok processed_data)
      /\ Image_open processed_data = Ok img0 /\ flatten img0 = Ok img
      /\ (0 <= t < 1024 -> save_jpeg img 85 = Ok (r_data r))
      /\ (t / 1024 <> 0 ->
          exists found,
            quality_search (save_jpeg img) (t / 1024 * 1024) 1 100 None = Ok found
            /\ match found with
               | Some (compressed_data, _, _) => r_data r = compressed_data
               | None => save_jpeg img 1 = Ok (r_data r)
               end).

(** C10 (as amended). In [process_pack] a compression target is divided by
    1024 before it reaches the search, which then runs against the target
    rounded down to a whole KiB. In every result of a run, for an entry
    with [compress] true: a target of 0..1023 bytes starts no search and
    the data is the encoding at quality 85; any other target, a negative
    one included, has a quotient other than zero and starts the search. *)
Theorem pack_target_whole_kib {pil : PIL} (now : nat -> datetime)
  (image_data : Py.bytes) (config : pack_config) (results : list pack_result) :
  process_pack now image_data config = Ok results ->
  Forall2 (compressed_to_kib image_data)
    (filter recognized (get (outputs config) [])) results
  /\ forall t, t / 1024 * 1024 <= t < t / 1024 * 1024 + 1024.
Proof.
  intros Hrun. split.
  - unfold process_pack in Hrun.
    destruct (pack_loop now image_data (get (outputs config) []) 0 [])
      as [final|] eqn:Hloop; [|discriminate].
    cbn [reraise] in Hrun. inversion Hrun; subst final.
    destruct (pack_loop_produced _ _ _ _ _ _ Hloop) as (new & Hfinal & Hmade).
    cbn [app] in Hfinal. subst new.
    eapply Forall2_impl; [|exact Hmade].
    intros output r (processed_data & Htr & Hstage) t Hcompress Htarget.
    rewrite Hcompress, Htarget in Hstage.
    destruct (compress_stage_target _ _ _ Hstage)
      as (img0 & img & Hopen & Hflat & Hsmall & Hsearch).
    exists processed_data, img0, img. auto.
  - intros t. pose proof (Z.div_mod t 1024 ltac:(lia)) as Hdm.
    pose proof (Z.mod_pos_bound t 1024 ltac:(lia)). lia.
Qed.

Module PackTargets.

(** Two thumbnails to compress, under 3000 bytes and under 500 bytes, and
    one whose target is negative. *)
Definition roomy : output_spec :=
  {| o_name := Some "roomy"; o_width := Some 40; o_height := Some 40;
     o_method := Some "resize"; o_compress := Some true;
     o_compress_target := Some 3000 |}.
Definition small : output_spec :=
  {| o_name := Some "small"; o_width := Some 40; o_height := Some 40;
     o_method := Some "resize"; o_compress := Some true;
     o_compress_target := Some 500 |}.
Definition negative : output_spec :=
  {| o_name := Some "negative"; o_width := Some 40; o_height := Some 40;
     o_method := Some "resize"; o_compress := Some true;
     o_compress_target := Some (-1) |}.

Definition config : pack_config := {| outputs := Some [roomy; small] |}.

Definition thumbnail : Toy.timage := ResizeFacts.sized_picture 40 40.

End PackTargets.

Lemma targets_pack_runs :
  is_ok (@process_pack Toy.pil Toy.frozen (Toy.png PackFacts.photo)
           PackTargets.config) = true.
Proof. vm_compute. reflexivity. Qed.

Lemma pack_target_whole_kib_witness :
  match @process_pack Toy.pil Toy.frozen (Toy.png PackFacts.photo)
          PackTargets.config with
  | Ok results =>
      Forall2 (@compressed_to_kib Toy.pil (Toy.png PackFacts.photo))
        [PackTargets.roomy; PackTargets.small] results
  | Raise _ => False
  end.
Proof.
  destruct (@process_pack Toy.pil Toy.frozen (Toy.png PackFacts.photo)
              PackTargets.config) as [results|msg] eqn:Hrun.
  - apply (@pack_target_whole_kib Toy.pil Toy.frozen (Toy.png PackFacts.photo)
             PackTargets.config results Hrun).
  - pose proof targets_pack_runs as Hok. rewrite Hrun in Hok. discriminate Hok.
Defined.

(** C10 fails as stated on a negative target: it is strictly below 1024
    bytes, its quotient by 1024 is [-1], the search runs, finds nothing
    under a negative size, and the output is the encoding at quality 1, not
    the one at quality 85. Targets of 3000 and of 500 bytes give the
    qualities 49 (the last one within 2048 bytes) and 85. *)
Lemma pack_negative_target_quality_1 :
  -1 < 1024
  /\ -1 / 1024 = -1
  /\ map_result (map r_data)
       (@process_pack Toy.pil Toy.frozen (Toy.png PackFacts.photo)
          {| outputs := Some [PackTargets.negative] |})
     = Ok [Toy.jpeg PackTargets.thumbnail 1]
  /\ Toy.jpeg PackTargets.thumbnail 1 <> Toy.jpeg PackTargets.thumbnail 85
  /\ map_result (map r_data)
       (@process_pack Toy.pil Toy.frozen (Toy.png PackFacts.photo)
          PackTargets.config)
     = Ok [Toy.jpeg PackTargets.thumbnail 49; Toy.jpeg PackTargets.thumbnail 85].
Proof.
  split; [reflexivity|]. split; [reflexivity|].
  split; [vm_compute; reflexivity|]. split.
  - intros Heq. apply (f_equal (@List.length Byte.byte)) in Heq.
    vm_compute in Heq. discriminate Heq.
  - vm_compute. reflexivity.
Qed.

(** ** The scenarios of the specification, run on the small codec *)

Example extension_examples :
  map Py.splitext_ext ["photo.PNG"; "a.tar.gz"; ".cshrc"; "dir.d/name"; "..x.jpg"; "x."]
  = [".PNG"; ".gz"; ""; ""; ".jpg"; "."]
  /\ map (Py.after_last ".") ["photo.png"; "noext"; "a.b.c"; "x."]
     = ["png"; "noext"; "c"; ""].
Proof. split; reflexivity. Qed.

(** 800 x 600 onto 1080 x 1080: the result decodes to 1080 x 1080. *)
Example scenario_composite :
  match @add_blur_borders Toy.pil (Toy.png PackFacts.photo) 1080 1080 30 with
  | Ok output =>
      match Toy.open output with
      | Ok canvas => (Toy.zwidth canvas, Toy.zheight canvas) = (1080, 1080)
      | Raise _ => False
      end
  | Raise _ => False
  end.
Proof. vm_compute. reflexivity. Qed.

(** 3000 x 1000 within 1920 x 1080 gives 1920 x 640, and 100 x 100 at 29
    percent gives 28 x 28. *)
Example scenario_resize :
  @new_size 3000 1000 None None None (Some 1920) (Some 1080) = Ok (1920, 640)
  /\ @new_size 100 100 None None (Some 29) None None = Ok (28, 28).
Proof. split; vm_compute; reflexivity. Qed.

(** * Further properties of [utils/image_processor.py] *)

(** ** [compress_image], all branches *)

(** What a search returns was recorded before it started or written by the
    encoder at a quality of the interval, within the target. *)
Lemma search_found (encode : Z -> result Py.bytes) (target : Z) (r : best) :
  forall lo hi b,
    quality_search encode target lo hi b = Ok (Some r) ->
    b = Some r
    \/ exists q data,
         lo <= q <= hi /\ encode q = Ok data /\ Py.len data <= target
         /\ r = (data, Py.len data, q).
Proof.
  apply (search_ind (fun lo hi b =>
    quality_search encode target lo hi b = Ok (Some r) ->
    b = Some r
    \/ exists q data,
         lo <= q <= hi /\ encode q = Ok data /\ Py.len data <= target
         /\ r = (data, Py.len data, q))).
  - intros lo hi b Hlt. rewrite search_step.
    destruct (Z.leb_spec lo hi); [lia|]. intros Hret. left. congruence.
  - intros lo hi b Hle IH. rewrite search_step.
    pose proof (mid_bounds _ _ Hle) as Hmid.
    destruct (Z.leb_spec lo hi); [|lia].
    destruct (encode ((lo + hi) / 2)) as [d|] eqn:Henc; [|discriminate].
    destruct (Z.leb_spec (Py.len d) target) as [Hfit | Hbig]; intros Hret.
    + right. apply IH in Hret; [|lia].
      destruct Hret as [Hsame | (q & data & Hq & Hsave & Hsz & Hr)].
      * exists ((lo + hi) / 2), d. inversion Hsame. repeat split; try lia.
        exact Henc.
      * exists q, data. repeat split; try lia; assumption.
    + apply IH in Hret; [|lia].
      destruct Hret as [Hsame | (q & data & Hq & Hsave & Hsz & Hr)];
        [left; exact Hsame|].
      right. exists q, data. repeat split; try lia; assumption.
Qed.

(** X1. Whatever [compress_image] returns is the JPEG encoding of the
    flattened image at the quality it reports, with the length of that
    encoding in bytes. The quality is one of 1..100 under a target, the
    [quality] argument without one, and 85 when both are absent or zero. *)
Theorem compress_image_result {pil : PIL} (image_data : Py.bytes)
  (target_size_kb quality : option Z) (compressed_data : Py.bytes)
  (compressed_size q : Z) :
  compress_image image_data target_size_kb quality
  = Ok (compressed_data, compressed_size, q) ->
  compressed_size = Py.len compressed_data
  /\ (exists img0 img,
        Image_open image_data = Ok img0 /\ flatten img0 = Ok img
        /\ save_jpeg img q = Ok compressed_data)
  /\ match Py.truthy target_size_kb, Py.truthy quality with
     | Some _, _ => 1 <= q <= 100
     | None, Some quality => q = quality
     | None, None => q = 85
     end.
Proof.
  intros Hret.
  destruct (compress_image_returned _ _ _ _ Hret)
    as (img0 & img & Hopen & Hflat & Hbranch).
  assert (Hgoal : compressed_size = Py.len compressed_data
                  /\ save_jpeg img q = Ok compressed_data
                  /\ match Py.truthy target_size_kb, Py.truthy quality with
                     | Some _, _ => 1 <= q <= 100
                     | None, Some quality => q = quality
                     | None, None => q = 85
                     end).
  { destruct (Py.truthy target_size_kb) as [kb|].
    - destruct Hbranch as (found & Hfound & Hbest).
      destruct found as [r|].
      + subst r. apply search_found in Hfound.
        destruct Hfound as [Hnone | (q' & data & Hq & Hsave & _ & Hr)];
          [discriminate|].
        inversion Hr; subst. auto.
      + apply encoded_returned in Hbest as (Hsave & Hsize & Hq).
        subst q. split; [exact Hsize|]. split; [exact Hsave | lia].
    - apply encoded_returned in Hbranch as (Hsave & Hsize & Hq).
      split; [exact Hsize|]. subst q. split; [exact Hsave|].
      destruct (Py.truthy quality); reflexivity. }
  destruct Hgoal as (Hsize & Hsave & Hq).
  split; [exact Hsize|]. split; [|exact Hq].
  exists img0, img. auto.
Qed.

Lemma picture_compresses :
  @compress_image Toy.pil (Toy.png ToyFacts.picture) (Some 0) (Some 40)
  = Ok (Toy.jpeg ToyFacts.picture 40, 2694, 40).
Proof. vm_compute. reflexivity. Qed.

Lemma compress_image_result_witness :
  2694 = Py.len (Toy.jpeg ToyFacts.picture 40)
  /\ (exists img0 img,
        Toy.open (Toy.png ToyFacts.picture) = Ok img0
        /\ @flatten Toy.pil img0 = Ok img
        /\ Toy.write_jpeg img 40 = Ok (Toy.jpeg ToyFacts.picture 40))
  /\ 40 = 40.
Proof.
  exact (@compress_image_result Toy.pil (Toy.png ToyFacts.picture)
           (Some 0) (Some 40) (Toy.jpeg ToyFacts.picture 40) 2694 40
           picture_compresses).
Defined.

(** ** The qualities the search encodes at *)

(** The loop of [quality_search] once more, recording the quality of each
    [img.save] call instead of the best result. *)
Equations? search_probes (encode : Z -> result Py.bytes) (target_size_bytes : Z)
  (min_quality max_quality : Z) : list Z
  by wf (Z.to_nat (max_quality - min_quality + 1)) lt :=
  search_probes encode target_size_bytes min_quality max_quality
    with Z_le_gt_dec min_quality max_quality := {
    | left _ =>
        let mid_quality := (min_quality + max_quality) / 2 in
        mid_quality ::
          match encode mid_quality with
          | Raise _ => []
          | Ok compressed_data =>
              if Py.len compressed_data <=? target_size_bytes
              then search_probes encode target_size_bytes (mid_quality + 1)
                     max_quality
              else search_probes encode target_size_bytes min_quality
                     (mid_quality - 1)
          end
    | right _ => [] }.
Proof.
  all: assert (min_quality <= (min_quality + max_quality) / 2 <= max_quality)
    by (split; [apply Z.div_le_lower_bound | apply Z.div_le_upper_bound]; lia).
  all: lia.
Qed.

(** What one save does to the best result so far. *)
Definition probe (encode : Z -> result Py.bytes) (target : Z)
  (found : result (option best)) (q : Z) : result (option best) :=
  b <- found ;;
  data <- encode q ;;
  Ok (if Py.len data <=? target then Some (data, Py.len data, q) else b).

Lemma search_probes_step (encode : Z -> result Py.bytes) (target lo hi : Z) :
  search_probes encode target lo hi =
    if lo <=? hi then
      (lo + hi) / 2 ::
        match encode ((lo + hi) / 2) with
        | Raise _ => []
        | Ok d =>
            if Py.len d <=? target
            then search_probes encode target ((lo + hi) / 2 + 1) hi
            else search_probes encode target lo ((lo + hi) / 2 - 1)
        end
    else [].
Proof.
  rewrite search_probes_equation_1.
  destruct (Z_le_gt_dec lo hi) as [Hle | Hgt];
    destruct (Z.leb_spec lo hi); try lia.
  - rewrite search_probes_clause_1_equation_1. reflexivity.
  - reflexivity.
Qed.

(** What [quality_search] returns is the encoding at the last probe that
    met the target, or the best it started with; and it raises what a
    probe raised. *)
Lemma search_follows_probes (encode : Z -> result Py.bytes) (target : Z) :
  forall lo hi b,
    quality_search encode target lo hi b
    = fold_left (probe encode target) (search_probes encode target lo hi) (Ok b).
Proof.
  apply (search_ind (fun lo hi b =>
    quality_search encode target lo hi b
    = fold_left (probe encode target) (search_probes encode target lo hi) (Ok b))).
  - intros lo hi b Hlt. rewrite search_step, search_probes_step.
    destruct (Z.leb_spec lo hi); [lia | reflexivity].
  - intros lo hi b Hle IH. rewrite search_step, search_probes_step.
    pose proof (mid_bounds _ _ Hle) as Hmid.
    destruct (Z.leb_spec lo hi); [|lia].
    cbn [fold_left]. unfold probe at 2. cbn [bind].
    destruct (encode ((lo + hi) / 2)) as [d|msg]; cbn [bind]; [|reflexivity].
    destruct (Py.len d <=? target); apply IH; lia.
Qed.

Lemma search_probes_bound (encode : Z -> result Py.bytes) (target : Z) (k : nat) :
  forall lo hi,
    hi - lo + 1 < 2 ^ Z.of_nat k ->
    (List.length (search_probes encode target lo hi) <= k)%nat
    /\ Forall (fun q => lo <= q <= hi) (search_probes encode target lo hi).
Proof.
  induction k as [|k IH]; intros lo hi Hwidth; rewrite search_probes_step.
  - change (2 ^ Z.of_nat 0) with 1 in Hwidth.
    destruct (Z.leb_spec lo hi); [lia|]. split; [simpl; lia | constructor].
  - destruct (Z.leb_spec lo hi) as [Hle|]; [|split; [simpl; lia | constructor]].
    pose proof (mid_bounds _ _ Hle) as Hmid.
    assert (Hpow : 2 ^ Z.of_nat (S k) = 2 * 2 ^ Z.of_nat k).
    { rewrite Nat2Z.inj_succ, Z.pow_succ_r by lia. reflexivity. }
    assert (Hhalf : 2 * ((lo + hi) / 2) <= lo + hi < 2 * ((lo + hi) / 2) + 2).
    { pose proof (Z.div_mod (lo + hi) 2 ltac:(lia)).
      pose proof (Z.mod_pos_bound (lo + hi) 2 ltac:(lia)). lia. }
    destruct (encode ((lo + hi) / 2)) as [d|msg].
    + destruct (Py.len d <=? target).
      * destruct (IH ((lo + hi) / 2 + 1) hi ltac:(lia)) as [Hlen Hall].
        split; [simpl; lia|]. constructor; [lia|].
        eapply Forall_impl; [|exact Hall]. simpl. intros q Hq. lia.
      * destruct (IH lo ((lo + hi) / 2 - 1) ltac:(lia)) as [Hlen Hall].
        split; [simpl; lia|]. constructor; [lia|].
        eapply Forall_impl; [|exact Hall]. simpl. intros q Hq. lia.
    + split; [simpl; lia|]. constructor; [lia | constructor].
Qed.

(** X2. The search of [compress_image] encodes at most seven times, each time
    at a quality of 1..100, and its result is decided by those encodings
    alone: it is the last of them that met the target, and the exception of
    the one that raised if one did. *)
Theorem search_encodes_at_most_seven_times (encode : Z -> result Py.bytes)
  (target : Z) :
  (List.length (search_probes encode target 1 100) <= 7)%nat
  /\ Forall (fun q => 1 <= q <= 100) (search_probes encode target 1 100)
  /\ quality_search encode target 1 100 None
     = fold_left (probe encode target) (search_probes encode target 1 100)
         (Ok None).
Proof.
  destruct (search_probes_bound encode target 7 1 100) as [Hlen Hall].
  - change (2 ^ Z.of_nat 7) with 128. lia.
  - split; [exact Hlen|]. split; [exact Hall|]. apply search_follows_probes.
Qed.

(** ** [strip_exif] *)

Definition strip_exif {pil : PIL} (image_data : Py.bytes) : result Py.bytes :=
  reraise "Error stripping EXIF: " (
    img <- Image_open image_data ;;
    img <- flatten img ;;
    save_jpeg img 95).

(** X3. [strip_exif] returns the bytes [compress_image] returns at quality 95,
    and raises, under its own prefix, exactly when [compress_image]
    does. *)
Theorem strip_exif_is_compress_95 {pil : PIL} (image_data : Py.bytes) :
  match strip_exif image_data, compress_image image_data None (Some 95) with
  | Ok stripped, Ok (compressed_data, compressed_size, quality) =>
      stripped = compressed_data
      /\ compressed_size = Py.len stripped /\ quality = 95
  | Raise msg1, Raise msg2 =>
      exists msg, msg1 = "Error stripping EXIF: " ++ msg
                  /\ msg2 = "Error compressing image: " ++ msg
  | _, _ => False
  end%string.
Proof.
  unfold strip_exif, compress_image, encoded.
  destruct (Image_open image_data) as [img0|msg]; cbn [bind reraise].
  - destruct (flatten img0) as [img|msg]; cbn [bind reraise Py.truthy].
    + cbn. destruct (save_jpeg img 95) as [data|msg]; cbn [bind reraise].
      * repeat split.
      * exists msg. split; reflexivity.
    + exists msg. split; reflexivity.
  - exists msg. split; reflexivity.
Qed.

(** ** [resize_image], the other modes *)

(** X4. With a width and a height, and no percentage, the image is stretched to
    exactly that size whatever its own proportions; the bounding-box
    arguments are not looked at. The call returns, with these sides,
    whenever Pillow's resizing and PNG encoder return; and whatever it
    returns decodes to an image of these sides. *)
Theorem resize_exact_stretches {pil : PIL} (image_data : Py.bytes) (img : Image)
  (width height : Z) (percentage max_width max_height : option Z) :
  Image_open image_data = Ok img ->
  Py.truthy percentage = None ->
  width <> 0 -> height <> 0 ->
  (forall resized output,
     resize img width height = Ok resized ->
     save_png resized = Ok output ->
     resize_image image_data (Some width) (Some height) percentage
       max_width max_height
     = Ok (output, width, height))
  /\ (forall output w h,
        resize_image image_data (Some width) (Some height) percentage
          max_width max_height
        = Ok (output, w, h) ->
        w = width /\ h = height
        /\ exists decoded,
             Image_open output = Ok decoded
             /\ img_width decoded = width /\ img_height decoded = height).
Proof.
  intros Hopen Hp Hw Hh.
  assert (Hsize : new_size (img_width img) (img_height img)
                    (Some width) (Some height) percentage max_width max_height
                  = Ok (width, height)).
  { unfold new_size. rewrite Hp.
    rewrite (truthy_nonzero width), (truthy_nonzero height) by assumption.
    reflexivity. }
  destruct (resize_image_sized _ _ _ _ _ _ _ _ _ Hopen Hsize) as [Hret Honly].
  split; [exact Hret|].
  intros output w h Hrun.
  destruct (Honly output w h Hrun) as (Hw' & Hh' & resized & Hres & Hsave).
  split; [exact Hw'|]. split; [exact Hh'|].
  destruct (open_png resized output Hsave) as (decoded & Hdec & Hdw & Hdh).
  destruct (resize_size _ _ _ _ Hres) as [Hrw Hrh].
  exists decoded. split; [exact Hdec|]. split; congruence.
Qed.

Lemma resize_exact_stretches_witness :
  @resize_image Toy.pil (Toy.png (ResizeFacts.sized_picture 300 100))
    (Some 50) (Some 400) (Some 0) (Some 10) None
  = Ok (Toy.png (ResizeFacts.sized_picture 50 400), 50, 400).
Proof.
  destruct (@resize_exact_stretches Toy.pil
              (Toy.png (ResizeFacts.sized_picture 300 100))
              (ResizeFacts.sized_picture 300 100) 50 400 (Some 0) (Some 10) None
              eq_refl eq_refl ltac:(lia) ltac:(lia)) as [Hreturns _].
  apply (Hreturns (ResizeFacts.sized_picture 50 400)); reflexivity.
Defined.

(** X5. An argument of [0] counts as absent: with every sizing argument absent
    or zero, a decodable image is refused with "No resize parameters
    specified". *)
Theorem resize_without_parameters {pil : PIL} (image_data : Py.bytes) (img : Image)
  (width height percentage max_width max_height : option Z) :
  Image_open image_data = Ok img ->
  Py.truthy width = None -> Py.truthy height = None ->
  Py.truthy percentage = None ->
  Py.truthy max_width = None -> Py.truthy max_height = None ->
  resize_image image_data width height percentage max_width max_height
  = Raise "Error resizing image: No resize parameters specified".
Proof.
  intros Hopen Hw Hh Hp Hmw Hmh. unfold resize_image, new_size.
  rewrite Hopen, Hw, Hh, Hp, Hmw, Hmh. reflexivity.
Qed.

Lemma resize_without_parameters_witness :
  @resize_image Toy.pil (Toy.png (ResizeFacts.sized_picture 300 100))
    (Some 0) None (Some 0) None (Some 0)
  = Raise "Error resizing image: No resize parameters specified".
Proof.
  apply (@resize_without_parameters Toy.pil
           (Toy.png (ResizeFacts.sized_picture 300 100))
           (ResizeFacts.sized_picture 300 100)); reflexivity.
Defined.

(** ** [add_blur_borders], on return *)

Lemma photo_composite_runs :
  is_ok (@add_blur_borders Toy.pil (Toy.png PackFacts.photo) 1080 1080 30) = true.
Proof. vm_compute. reflexivity. Qed.

(** X6. Whenever [add_blur_borders] returns, what it returns decodes to an
    image of exactly [target_width] by [target_height]: the canvas is made
    at that size and the two pastes keep it. *)
Theorem add_blur_borders_returns_canvas {pil : PIL}
  (image_data output : Py.bytes) (target_width target_height blur_amount : Z) :
  add_blur_borders image_data target_width target_height blur_amount = Ok output ->
  exists canvas,
    Image_open output = Ok canvas
    /\ img_width canvas = target_width /\ img_height canvas = target_height.
Proof. apply add_blur_borders_canvas_size. Qed.

Lemma add_blur_borders_returns_canvas_witness :
  match @add_blur_borders Toy.pil (Toy.png PackFacts.photo) 1080 1080 30 with
  | Ok output =>
      exists canvas,
        Toy.open output = Ok canvas
        /\ Toy.zwidth canvas = 1080 /\ Toy.zheight canvas = 1080
  | Raise _ => False
  end.
Proof.
  destruct (@add_blur_borders Toy.pil (Toy.png PackFacts.photo) 1080 1080 30)
    as [output|msg] eqn:Hrun.
  - apply (@add_blur_borders_returns_canvas Toy.pil (Toy.png PackFacts.photo)
             output 1080 1080 30 Hrun).
  - pose proof photo_composite_runs as Hok. rewrite Hrun in Hok. discriminate Hok.
Defined.

(** ** [process_pack], failures and empty runs *)

Lemma pack_loop_first_failure {pil : PIL} (now : nat -> datetime)
  (image_data : Py.bytes) (bad : output_spec) (after : list output_spec)
  (msg : string) :
  transform image_data bad = Some (Raise msg) ->
  forall before tick results,
    forallb (goes_through image_data) before = true ->
    pack_loop now image_data (before ++ bad :: after)%list tick results
    = Raise msg.
Proof.
  intros Hbad. induction before as [|output rest IH]; intros tick results Hall.
  - cbn [app pack_loop]. rewrite Hbad. reflexivity.
  - cbn [forallb] in Hall. apply andb_true_iff in Hall as [Hone Hrest].
    cbn [app pack_loop]. unfold goes_through in Hone.
    destruct (transform image_data output) as [[processed_data|msg']|];
      [|discriminate|apply IH; exact Hrest].
    destruct (compress_stage _ _ _); [|discriminate].
    apply IH. exact Hrest.
Qed.

(** X8. A batch stops at its first failing entry: when the entries before it go
    through and its own transformation raises, [process_pack] raises that
    error under its prefix and returns none of the results made so far. *)
Theorem process_pack_first_failure {pil : PIL} (now : nat -> datetime)
  (image_data : Py.bytes) (config : pack_config)
  (before after : list output_spec) (bad : output_spec) (msg : string) :
  get (outputs config) [] = (before ++ bad :: after)%list ->
  forallb (goes_through image_data) before = true ->
  transform image_data bad = Some (Raise msg) ->
  process_pack now image_data config
  = Raise ("Error processing pack: " ++ msg)%string.
Proof.
  intros Houts Hall Hbad. unfold process_pack. rewrite Houts.
  rewrite (pack_loop_first_failure now image_data bad after msg Hbad before
             0%nat [] Hall).
  reflexivity.
Qed.

Module PackFailure.

(** A blur entry that lacks its height. *)
Definition lame : output_spec :=
  {| o_name := Some "lame"; o_width := Some 100; o_height := None;
     o_method := None; o_compress := None; o_compress_target := None |}.

Definition config : pack_config :=
  {| outputs := Some [PackFacts.thumb; lame; PackFacts.square] |}.

End PackFailure.

Lemma process_pack_first_failure_witness :
  @process_pack Toy.pil Toy.frozen (Toy.png PackFacts.photo) PackFailure.config
  = Raise ("Error processing pack: Error processing blur: "
           ++ "'<' not supported between instances of 'NoneType' and 'int'")%string.
Proof.
  apply (@process_pack_first_failure Toy.pil Toy.frozen (Toy.png PackFacts.photo)
           PackFailure.config [PackFacts.thumb] [PackFacts.square]
           PackFailure.lame).
  - reflexivity.
  - vm_compute. reflexivity.
  - reflexivity.
Defined.

(** X9. A configuration without an [outputs] key, or in which no entry has a
    recognized method, gives the empty list, and the buffer is not even
    opened: this holds for buffers that are no image at all. *)
Theorem process_pack_nothing_to_do {pil : PIL} (now : nat -> datetime)
  (image_data : Py.bytes) (config : pack_config) :
  (forall output, In output (get (outputs config) []) -> recognized output = false) ->
  process_pack now image_data config = Ok [].
Proof.
  intros Hnone. unfold process_pack.
  rewrite <- pack_loop_skips.
  replace (filter recognized (get (outputs config) [])) with (@nil output_spec).
  - reflexivity.
  - symmetry. induction (get (outputs config) []) as [|output rest IH];
      [reflexivity|].
    cbn [filter]. rewrite (Hnone output (or_introl eq_refl)).
    apply IH. intros o Ho. apply Hnone. right. exact Ho.
Qed.

Lemma process_pack_nothing_to_do_witness :
  @process_pack Toy.pil Toy.frozen [] {| outputs := Some [PackFacts.odd] |} = Ok []
  /\ @process_pack Toy.pil Toy.frozen [] {| outputs := None |} = Ok [].
Proof.
  split.
  - apply (@process_pack_nothing_to_do Toy.pil Toy.frozen []
             {| outputs := Some [PackFacts.odd] |}).
    intros output [<- | []]. reflexivity.
  - apply (@process_pack_nothing_to_do Toy.pil Toy.frozen [] {| outputs := None |}).
    intros output [].
Defined.

(** ** [validate_image_file] and [get_image_info] *)

Lemma validate_image_file_accepted {pil : PIL} (file_data : Py.bytes)
  (filename : string) (max_size : Z) (allowed_extensions : option (list string))
  (answer : bool) :
  validate_image_file file_data filename max_size allowed_extensions = Ok answer ->
  answer = true
  /\ Py.len file_data <= max_size
  /\ image_extension_allowed filename allowed_extensions = true
  /\ exists img,
       Image_open file_data = Ok img
       /\ verify img = Ok tt
       /\ 1 <= img_width img <= 4000
       /\ 1 <= img_height img <= 4000.
Proof.
  unfold validate_image_file, image_extension_allowed. intros H.
  destruct (Z.gtb_spec (Py.len file_data) max_size) as [Hbig | Hfit];
    cbn [raise_if bind] in H.
  { destruct (Py.contains _ _); discriminate. }
  destruct (extension_allowed _ filename allowed_extensions);
    cbn [raise_if bind negb] in H;
    [|destruct (Py.contains _ _); discriminate].
  destruct (Image_open file_data) as [img|msg]; cbn [bind] in H;
    [|destruct (Py.contains _ _); discriminate].
  destruct (verify img) as [[]|msg] eqn:Hverify; cbn [bind] in H;
    [|destruct (Py.contains _ _); discriminate].
  destruct (Z.ltb_spec (img_width img) 1); cbn [raise_if bind orb] in H;
    [discriminate|].
  destruct (Z.ltb_spec (img_height img) 1); cbn [raise_if bind orb] in H;
    [discriminate|].
  destruct (Z.gtb_spec (img_width img) 4000); cbn [raise_if bind orb] in H;
    [discriminate|].
  destruct (Z.gtb_spec (img_height img) 4000); cbn [raise_if bind orb] in H;
    [discriminate|].
  inversion H. split; [reflexivity|]. split; [lia|]. split; [reflexivity|].
  exists img. split; [reflexivity|]. split; [exact Hverify|]. lia.
Qed.

(** X10. [validate_image_file] never returns [False]: it returns [True] or
    raises. And what it accepts is within the size limit, has an allowed
    extension (when a list is given), decodes, passes [verify] and has both
    sides in 1..4000. *)
Theorem validate_image_file_sound {pil : PIL} (file_data : Py.bytes)
  (filename : string) (max_size : Z) (allowed_extensions : option (list string))
  (answer : bool) :
  validate_image_file file_data filename max_size allowed_extensions = Ok answer ->
  answer = true
  /\ Py.len file_data <= max_size
  /\ image_extension_allowed filename allowed_extensions = true
  /\ exists img,
       Image_open file_data = Ok img
       /\ verify img = Ok tt
       /\ 1 <= img_width img <= 4000
       /\ 1 <= img_height img <= 4000.
Proof.
  intros H.
  destruct (validate_image_file_accepted _ _ _ _ _ H)
    as (Htrue & Hsize & Hext & img & Hopen & Hverify & Hw & Hh).
  split; [exact Htrue|]. split; [exact Hsize|]. split; [exact Hext|].
  exists img. auto.
Qed.

Lemma picture_validates :
  @validate_image_file Toy.pil (Toy.png ToyFacts.picture) "photo.png" 10485760
    (Some ["jpg"; "png"]) = Ok true.
Proof. vm_compute. reflexivity. Qed.

Lemma validate_image_file_sound_witness :
  true = true
  /\ Py.len (Toy.png ToyFacts.picture) <= 10485760
  /\ image_extension_allowed "photo.png" (Some ["jpg"; "png"]) = true
  /\ exists img,
       Toy.open (Toy.png ToyFacts.picture) = Ok img
       /\ @verify Toy.pil img = Ok tt
       /\ 1 <= Toy.zwidth img <= 4000
       /\ 1 <= Toy.zheight img <= 4000.
Proof.
  exact (@validate_image_file_sound Toy.pil (Toy.png ToyFacts.picture)
           "photo.png" 10485760 (Some ["jpg"; "png"]) true picture_validates).
Defined.

(** X11. The upload route reads the metadata of what it has validated: for an
    accepted buffer [get_image_info] succeeds, the sides it reports are in
    1..4000 and the size it reports is the length of the buffer, within the
    limit. *)
Theorem validated_image_info {pil : PIL} (file_data : Py.bytes)
  (filename : string) (max_size : Z) (allowed_extensions : option (list string)) :
  validate_image_file file_data filename max_size allowed_extensions = Ok true ->
  exists info,
    get_image_info file_data = Ok info
    /\ 1 <= i_width info <= 4000
    /\ 1 <= i_height info <= 4000
    /\ i_size info = Py.len file_data
    /\ i_size info <= max_size.
Proof.
  intros Hvalid.
  destruct (validate_image_file_accepted _ _ _ _ _ Hvalid)
    as (_ & Hsize & _ & img & Hopen & _ & Hw & Hh).
  unfold get_image_info. rewrite Hopen. cbn [bind reraise].
  eexists. split; [reflexivity|]. cbn. lia.
Qed.

Lemma validated_image_info_witness :
  exists info,
    @get_image_info Toy.pil (Toy.png ToyFacts.picture) = Ok info
    /\ 1 <= i_width info <= 4000
    /\ 1 <= i_height info <= 4000
    /\ i_size info = Py.len (Toy.png ToyFacts.picture)
    /\ i_size info <= 10485760.
Proof.
  exact (@validated_image_info Toy.pil (Toy.png ToyFacts.picture)
           "photo.png" 10485760 (Some ["jpg"; "png"]) picture_validates).
Defined.

(** X12. The size test comes first: a buffer over the limit is refused with the
    size message, whatever its name and content. *)
Theorem validate_image_file_oversize {pil : PIL} (file_data : Py.bytes)
  (filename : string) (max_size : Z) (allowed_extensions : option (list string)) :
  max_size < Py.len file_data ->
  validate_image_file file_data filename max_size allowed_extensions
  = Raise ("File size exceeds maximum allowed size of "
           ++ Py.str_of_int (max_size / (1024 * 1024)) ++ "MB")%string.
Proof.
  intros Hbig. unfold validate_image_file.
  rewrite (gtb_lt _ _ Hbig). cbn [raise_if bind].
  rewrite size_message_kept. reflexivity.
Qed.

Lemma validate_image_file_oversize_witness :
  @validate_image_file Toy.pil (Toy.png ToyFacts.picture) "notes.txt" 100
    (Some ["png"])
  = Raise "File size exceeds maximum allowed size of 0MB".
Proof.
  apply (@validate_image_file_oversize Toy.pil (Toy.png ToyFacts.picture)
           "notes.txt" 100 (Some ["png"])).
  vm_compute. reflexivity.
Defined.

(** * Further properties of [utils/security.py] *)

(** ** [validate_file_upload] *)

Lemma validate_file_upload_accepted (file_data : Py.bytes) (filename : string)
  (max_size : Z) (allowed_extensions : option (list string)) (answer : bool) :
  Security.validate_file_upload file_data filename max_size allowed_extensions
  = Ok answer ->
  answer = true
  /\ Py.len file_data <= max_size
  /\ upload_extension_allowed filename allowed_extensions = true
  /\ Security.is_valid_image file_data = true
  /\ existsb (fun pattern =>
                Security.bytes_contain pattern (Security.lower_bytes file_data))
       Security.dangerous_patterns = false.
Proof.
  unfold Security.validate_file_upload, upload_extension_allowed. intros H.
  destruct (Z.gtb_spec (Py.len file_data) max_size); [discriminate|].
  destruct (extension_allowed _ filename allowed_extensions); [|discriminate].
  destruct (Security.is_valid_image file_data); [|discriminate].
  destruct (existsb _ Security.dangerous_patterns); [discriminate|].
  inversion H. repeat split. lia.
Qed.

Lemma startswith_app (magic rest : Py.bytes) :
  Py.startswith (magic ++ rest)%list magic = true.
Proof.
  induction magic as [|m magic IH]; [destruct rest; reflexivity|].
  cbn [app Py.startswith]. rewrite IH, andb_true_r.
  apply Byte.byte_dec_lb. reflexivity.
Qed.

Lemma bytes_contain_inside (pattern before rest : Py.bytes) :
  Security.bytes_contain pattern (before ++ pattern ++ rest)%list = true.
Proof.
  induction before as [|b before IH].
  - cbn [app]. destruct (pattern ++ rest)%list eqn:Heq;
      cbn [Security.bytes_contain]; rewrite <- Heq, startswith_app; reflexivity.
  - cbn [app Security.bytes_contain]. rewrite IH.
    destruct (Py.startswith _ _); reflexivity.
Qed.

(** X14. [validate_file_upload] accepts no buffer in which one of its dangerous
    patterns occurs, in whatever mix of upper and lower case: such a buffer
    makes the call raise. *)
Theorem validate_file_upload_refuses_scripts (before variant rest : Py.bytes)
  (filename : string) (max_size : Z) (allowed_extensions : option (list string)) :
  In (Security.lower_bytes variant) Security.dangerous_patterns ->
  exists msg,
    Security.validate_file_upload (before ++ variant ++ rest)%list filename
      max_size allowed_extensions
    = Raise msg.
Proof.
  intros Hin.
  destruct (Security.validate_file_upload _ filename max_size allowed_extensions)
    as [answer|msg] eqn:Hrun; [|eauto].
  destruct (validate_file_upload_accepted _ _ _ _ _ Hrun)
    as (_ & _ & _ & _ & Hclean).
  assert (Hfound : existsb
            (fun pattern =>
               Security.bytes_contain pattern
                 (Security.lower_bytes (before ++ variant ++ rest)%list))
            Security.dangerous_patterns = true).
  { apply existsb_exists. exists (Security.lower_bytes variant).
    split; [exact Hin|].
    unfold Security.lower_bytes. rewrite !map_app.
    apply bytes_contain_inside. }
  congruence.
Qed.

Lemma validate_file_upload_refuses_scripts_witness :
  exists msg,
    Security.validate_file_upload
      (Toy.png ToyFacts.picture ++ Security.bytes_of "<ScRiPt" ++ [Byte.x3e])%list
      "photo.png" 10485760 (Some ["png"])
    = Raise msg.
Proof.
  apply (validate_file_upload_refuses_scripts (Toy.png ToyFacts.picture)
           (Security.bytes_of "<ScRiPt") [Byte.x3e]).
  left. reflexivity.
Defined.

(** X13. What [validate_file_upload] accepts is within the size limit, has an
    allowed last dot-separated part (when a list is given), starts with one
    of the five signatures and contains none of the dangerous patterns; it
    never returns [False]. *)
Theorem validate_file_upload_sound (file_data : Py.bytes) (filename : string)
  (max_size : Z) (allowed_extensions : option (list string)) (answer : bool) :
  Security.validate_file_upload file_data filename max_size allowed_extensions
  = Ok answer ->
  answer = true
  /\ Py.len file_data <= max_size
  /\ upload_extension_allowed filename allowed_extensions = true
  /\ Security.is_valid_image file_data = true
  /\ forall pattern,
       In pattern Security.dangerous_patterns ->
       Security.bytes_contain pattern (Security.lower_bytes file_data) = false.
Proof.
  intros H.
  destruct (validate_file_upload_accepted _ _ _ _ _ H)
    as (Htrue & Hsize & Hext & Hmagic & Hclean).
  repeat (split; [assumption|]).
  intros pattern Hin.
  destruct (Security.bytes_contain pattern (Security.lower_bytes file_data))
    eqn:Hfound; [|reflexivity].
  rewrite <- Hclean. symmetry. apply existsb_exists. exists pattern. auto.
Qed.

Lemma picture_uploads :
  Security.validate_file_upload (Toy.png ToyFacts.picture) "photo.png" 10485760
    (Some ["png"]) = Ok true.
Proof. vm_compute. reflexivity. Qed.

Lemma validate_file_upload_sound_witness :
  true = true
  /\ Py.len (Toy.png ToyFacts.picture) <= 10485760
  /\ upload_extension_allowed "photo.png" (Some ["png"]) = true
  /\ Security.is_valid_image (Toy.png ToyFacts.picture) = true
  /\ forall pattern,
       In pattern Security.dangerous_patterns ->
       Security.bytes_contain pattern
         (Security.lower_bytes (Toy.png ToyFacts.picture)) = false.
Proof.
  exact (validate_file_upload_sound (Toy.png ToyFacts.picture) "photo.png"
           10485760 (Some ["png"]) true picture_uploads).
Defined.

(** ** The letter case of a file name *)

(** Lowering a character makes it a dot or a slash only if it was one. *)
Lemma lower_ascii_keeps (c a : ascii) :
  c = "."%char \/ c = "/"%char ->
  Ascii.eqb (Py.lower_ascii a) c = Ascii.eqb a c.
Proof.
  intros [-> | ->];
    destruct a as [[] [] [] [] [] [] [] []]; vm_compute; reflexivity.
Qed.

Lemma prefix_one (c a : ascii) (s : string) :
  String.prefix (String c EmptyString) (String a s) = Ascii.eqb a c.
Proof.
  cbn [String.prefix].
  destruct (ascii_dec c a) as [<- | Hne].
  - rewrite Ascii.eqb_refl. destruct s; reflexivity.
  - symmetry. apply Ascii.eqb_neq. congruence.
Qed.

Lemma contains_one_lower (c : ascii) (s : string) :
  c = "."%char \/ c = "/"%char ->
  Py.contains (String c EmptyString) (Py.lower s)
  = Py.contains (String c EmptyString) s.
Proof.
  intros Hc. induction s as [|a s IH]; [reflexivity|].
  cbn [Py.lower Py.contains]. rewrite !prefix_one, (lower_ascii_keeps c a Hc), IH.
  reflexivity.
Qed.

Lemma after_last_lower (c : ascii) (s : string) :
  c = "."%char \/ c = "/"%char ->
  Py.after_last c (Py.lower s) = Py.lower (Py.after_last c s).
Proof.
  intros Hc. induction s as [|a s IH]; [reflexivity|].
  cbn [Py.lower Py.after_last].
  rewrite (contains_one_lower c s Hc), (lower_ascii_keeps c a Hc), IH.
  destruct (Py.contains _ s); [reflexivity|].
  destruct (Ascii.eqb a c); reflexivity.
Qed.

Lemma lstrip_dot_cons (a : ascii) (s : string) :
  Py.lstrip_dot (String a s)
  = if Ascii.eqb a "." then Py.lstrip_dot s else String a s.
Proof.
  destruct a as [[] [] [] [] [] [] [] []]; reflexivity.
Qed.

Lemma lstrip_dot_lower (s : string) :
  Py.lstrip_dot (Py.lower s) = Py.lower (Py.lstrip_dot s).
Proof.
  induction s as [|a s IH]; [reflexivity|].
  cbn [Py.lower]. rewrite !lstrip_dot_cons.
  rewrite (lower_ascii_keeps "." a (or_introl eq_refl)), IH.
  destruct (Ascii.eqb a "."); reflexivity.
Qed.

Lemma splitext_ext_lower (p : string) :
  Py.splitext_ext (Py.lower p) = Py.lower (Py.splitext_ext p).
Proof.
  unfold Py.splitext_ext.
  rewrite (after_last_lower "/" p (or_intror eq_refl)), lstrip_dot_lower.
  rewrite (contains_one_lower "." _ (or_introl eq_refl)).
  destruct (Py.contains "." _); [|reflexivity].
  rewrite (after_last_lower "." _ (or_introl eq_refl)). reflexivity.
Qed.

Lemma lower_ascii_twice (a : ascii) :
  Py.lower_ascii (Py.lower_ascii a) = Py.lower_ascii a.
Proof. destruct a as [[] [] [] [] [] [] [] []]; vm_compute; reflexivity. Qed.

Lemma lower_twice (s : string) : Py.lower (Py.lower s) = Py.lower s.
Proof.
  induction s as [|a s IH]; [reflexivity|].
  cbn [Py.lower]. rewrite lower_ascii_twice, IH. reflexivity.
Qed.

(** X15. Both validators read the extension without regard to letter case: two
    names that differ only in the case of their letters get the same
    verdict, on every buffer and under every limit and allow-list. *)
Theorem validators_ignore_filename_case {pil : PIL} (file_data : Py.bytes)
  (filename1 filename2 : string) (max_size : Z)
  (allowed_extensions : option (list string)) :
  Py.lower filename1 = Py.lower filename2 ->
  validate_image_file file_data filename1 max_size allowed_extensions
  = validate_image_file file_data filename2 max_size allowed_extensions
  /\ Security.validate_file_upload file_data filename1 max_size allowed_extensions
     = Security.validate_file_upload file_data filename2 max_size
         allowed_extensions.
Proof.
  intros Hsame.
  assert (Himg : forall exts,
             extension_allowed
               (fun f => Py.lstrip_dot (Py.lower (Py.splitext_ext f)))
               filename1 exts
             = extension_allowed
                 (fun f => Py.lstrip_dot (Py.lower (Py.splitext_ext f)))
                 filename2 exts).
  { intros exts. unfold extension_allowed.
    rewrite <- !splitext_ext_lower, Hsame. reflexivity. }
  assert (Hup : forall exts,
             extension_allowed (fun f => Py.after_last "." (Py.lower f))
               filename1 exts
             = extension_allowed (fun f => Py.after_last "." (Py.lower f))
                 filename2 exts).
  { intros exts. unfold extension_allowed. rewrite Hsame. reflexivity. }
  unfold validate_image_file, Security.validate_file_upload.
  rewrite Himg, Hup. split; reflexivity.
Qed.

Lemma validators_ignore_filename_case_witness :
  @validate_image_file Toy.pil (Toy.png ToyFacts.picture) "Photo.PNG" 10485760
    (Some ["png"])
  = @validate_image_file Toy.pil (Toy.png ToyFacts.picture) "photo.png" 10485760
      (Some ["png"])
  /\ Security.validate_file_upload (Toy.png ToyFacts.picture) "Photo.PNG"
       10485760 (Some ["png"])
     = Security.validate_file_upload (Toy.png ToyFacts.picture) "photo.png"
         10485760 (Some ["png"]).
Proof.
  apply (@validators_ignore_filename_case Toy.pil (Toy.png ToyFacts.picture)
           "Photo.PNG" "photo.png" 10485760 (Some ["png"])).
  reflexivity.
Defined.

(** ** [sanitize_filename]

    The two regular expressions are character classes: the first is
    replaced character by character, the second removed. Paths are POSIX
    paths, as for [Py.splitext_ext]. *)

Module Sanitize.

(** The class of the first expression: the nine characters [<], [>],
    [:], the double quote (character 34), [/], the backslash, [|], [?] and
    the star. *)
Definition is_dangerous (c : ascii) : bool :=
  existsb (Ascii.eqb c)
    ["<"; ">"; ":"; ascii_of_nat 34; "/"; "\"; "|"; "?"; "*"]%char.

(** The class of the second expression: characters 0..31 and
    127..159. *)
Definition is_control (c : ascii) : bool :=
  let n := nat_of_ascii c in
  Nat.leb n 31 || (Nat.leb 127 n && Nat.leb n 159).

Fixpoint map_chars (f : ascii -> ascii) (s : string) : string :=
  match s with
  | EmptyString => EmptyString
  | String c s' => String (f c) (map_chars f s')
  end.

Fixpoint filter_chars (keep : ascii -> bool) (s : string) : string :=
  match s with
  | EmptyString => EmptyString
  | String c s' =>
      if keep c then String c (filter_chars keep s') else filter_chars keep s'
  end.

(** [s[:k]]: a negative [k] counts from the end. *)
Definition slice_to (s : string) (k : Z) : string :=
  let n := Z.of_nat (String.length s) in
  let stop := if k <? 0 then Z.max 0 (n + k) else Z.min k n in
  String.substring 0 (Z.to_nat stop) s.

(** [os.path.splitext(p)]: the extension is a suffix of [p]. *)
Definition splitext (p : string) : string * string :=
  let ext := Py.splitext_ext p in
  (String.substring 0 (String.length p - String.length ext) p, ext).

(** The name after [os.path.basename] and the two substitutions. *)
Definition scrubbed (filename : string) : string :=
  let filename := Py.after_last "/" filename in
  let filename := map_chars (fun c => if is_dangerous c then "_"%char else c)
                    filename in
  filter_chars (fun c => negb (is_control c)) filename.

Definition sanitize_filename (filename : string) : string :=
  let filename := scrubbed filename in
  let filename :=
    if (255 <? String.length filename)%nat then
      let (name, ext) := splitext filename in
      (slice_to name (255 - Z.of_nat (String.length ext)) ++ ext)%string
    else filename in
  if String.eqb filename "" || String.eqb filename "." || String.eqb filename ".."
  then "unnamed_file"
  else filename.

(** Every character of [s] satisfies [ok]. *)
Fixpoint all_chars (ok : ascii -> bool) (s : string) : bool :=
  match s with
  | EmptyString => true
  | String c s' => ok c && all_chars ok s'
  end.

Definition is_safe (c : ascii) : bool := negb (is_dangerous c) && negb (is_control c).

End Sanitize.

Example sanitize_examples :
  map Sanitize.sanitize_filename
    ["../../etc/passwd"; "a<b>c.png"; ".."; "dir/"; "report?.pdf"]
  = ["passwd"; "a_b_c.png"; "unnamed_file"; "unnamed_file"; "report_.pdf"].
Proof. reflexivity. Qed.

Section SanitizeFacts.

Import Sanitize.

Lemma all_chars_append (ok : ascii -> bool) (a b : string) :
  all_chars ok (a ++ b) = all_chars ok a && all_chars ok b.
Proof.
  induction a as [|c a IH]; [reflexivity|].
  cbn [String.append all_chars]. rewrite IH, andb_assoc. reflexivity.
Qed.

Lemma all_chars_substring (ok : ascii -> bool) (s : string) :
  all_chars ok s = true ->
  forall n m, all_chars ok (String.substring n m s) = true.
Proof.
  induction s as [|c s IH]; intros Hs n m.
  - destruct n, m; reflexivity.
  - cbn [all_chars] in Hs. apply andb_true_iff in Hs as [Hc Hrest].
    destruct n as [|n]; destruct m as [|m]; cbn [String.substring all_chars];
      try reflexivity; try (apply IH; exact Hrest).
    rewrite Hc. apply IH. exact Hrest.
Qed.

Lemma all_chars_after_last (ok : ascii -> bool) (c : ascii) (s : string) :
  all_chars ok s = true -> all_chars ok (Py.after_last c s) = true.
Proof.
  induction s as [|a s IH]; intros Hs; [reflexivity|].
  cbn [Py.after_last]. pose proof Hs as Hall.
  cbn [all_chars] in Hs. apply andb_true_iff in Hs as [Ha Hrest].
  destruct (Py.contains _ s); [apply IH; exact Hrest|].
  destruct (Ascii.eqb a c); [exact Hrest | exact Hall].
Qed.

Lemma all_chars_lstrip_dot (ok : ascii -> bool) (s : string) :
  all_chars ok s = true -> all_chars ok (Py.lstrip_dot s) = true.
Proof.
  induction s as [|a s IH]; intros Hs; [reflexivity|].
  rewrite lstrip_dot_cons. pose proof Hs as Hall.
  cbn [all_chars] in Hs. apply andb_true_iff in Hs as [Ha Hrest].
  destruct (Ascii.eqb a "."); [apply IH; exact Hrest | exact Hall].
Qed.

Lemma all_chars_splitext_ext (ok : ascii -> bool) (s : string) :
  ok "."%char = true ->
  all_chars ok s = true -> all_chars ok (Py.splitext_ext s) = true.
Proof.
  intros Hdot Hs. unfold Py.splitext_ext.
  destruct (Py.contains "." _); [|reflexivity].
  cbn [all_chars]. rewrite Hdot.
  apply all_chars_after_last, all_chars_lstrip_dot, all_chars_after_last.
  exact Hs.
Qed.

Lemma replaced_not_dangerous (c : ascii) :
  is_dangerous (if is_dangerous c then "_"%char else c) = false.
Proof. destruct (is_dangerous c) eqn:Hc; [reflexivity | exact Hc]. Qed.

Lemma scrubbed_safe (filename : string) :
  all_chars is_safe (scrubbed filename) = true.
Proof.
  unfold scrubbed. induction (Py.after_last "/" filename) as [|c s IH];
    [reflexivity|].
  cbn [map_chars filter_chars].
  destruct (is_control (if is_dangerous c then "_"%char else c)) eqn:Hctl;
    cbn [negb]; [exact IH|].
  cbn [all_chars]. unfold is_safe at 1.
  rewrite replaced_not_dangerous, Hctl. exact IH.
Qed.

Lemma substring_length (s : string) :
  forall n, String.length (String.substring 0 n s) = Nat.min n (String.length s).
Proof.
  induction s as [|c s IH]; intros n; destruct n; cbn; try reflexivity.
  rewrite IH. reflexivity.
Qed.

Lemma append_length (a b : string) :
  String.length (a ++ b) = (String.length a + String.length b)%nat.
Proof. induction a as [|c a IH]; cbn; [reflexivity | rewrite IH; reflexivity]. Qed.

(** The last step of [sanitize_filename]. *)
Definition guarded (filename : string) : string :=
  if String.eqb filename "" || String.eqb filename "." || String.eqb filename ".."
  then "unnamed_file" else filename.

Lemma guarded_not_special (filename : string) :
  guarded filename <> "" /\ guarded filename <> "." /\ guarded filename <> "..".
Proof.
  unfold guarded.
  destruct (String.eqb_spec filename ""); [cbn; repeat split; discriminate|].
  destruct (String.eqb_spec filename "."); [cbn; repeat split; discriminate|].
  destruct (String.eqb_spec filename ".."); [cbn; repeat split; discriminate|].
  cbn. auto.
Qed.

Lemma guarded_safe (filename : string) :
  all_chars is_safe filename = true -> all_chars is_safe (guarded filename) = true.
Proof.
  intros Hs. unfold guarded.
  destruct (_ || _); [reflexivity | exact Hs].
Qed.

Lemma guarded_length (filename : string) (n : nat) :
  (12 <= n)%nat -> (String.length filename <= n)%nat ->
  (String.length (guarded filename) <= n)%nat.
Proof.
  intros Hn Hs. unfold guarded. destruct (_ || _); [cbn; lia | exact Hs].
Qed.

Lemma sanitize_unfold (filename : string) :
  sanitize_filename filename
  = guarded
      (if (255 <? String.length (scrubbed filename))%nat then
         (slice_to (fst (splitext (scrubbed filename)))
            (255 - Z.of_nat (String.length (Py.splitext_ext (scrubbed filename))))
          ++ Py.splitext_ext (scrubbed filename))%string
       else scrubbed filename).
Proof. reflexivity. Qed.

Lemma sanitize_safe_chars (filename : string) :
  all_chars is_safe (sanitize_filename filename) = true.
Proof.
  rewrite sanitize_unfold. apply guarded_safe.
  pose proof (scrubbed_safe filename) as Hs.
  destruct (255 <? _)%nat; [|exact Hs].
  rewrite all_chars_append. apply andb_true_iff. split.
  - unfold slice_to, splitext. cbn [fst].
    apply all_chars_substring, all_chars_substring. exact Hs.
  - apply all_chars_splitext_ext; [reflexivity | exact Hs].
Qed.

Lemma sanitize_short (filename : string) :
  (String.length (Py.splitext_ext (scrubbed filename)) <= 255)%nat ->
  (String.length (sanitize_filename filename) <= 255)%nat.
Proof.
  intros Hext. rewrite sanitize_unfold. apply guarded_length; [lia|].
  destruct (Nat.ltb_spec 255 (String.length (scrubbed filename))) as [Hlong | Hfit];
    [|exact Hfit].
  rewrite append_length. unfold slice_to.
  rewrite substring_length.
  destruct (Z.ltb_spec (255 - Z.of_nat (String.length
                                          (Py.splitext_ext (scrubbed filename)))) 0);
    lia.
Qed.

Lemma safe_lacks_slash (s : string) :
  all_chars is_safe s = true -> lacks "/" s = true.
Proof.
  induction s as [|c s IH]; intros Hs; [reflexivity|].
  cbn [all_chars] in Hs. apply andb_true_iff in Hs as [Hc Hrest].
  cbn [lacks]. rewrite (IH Hrest), andb_true_r.
  destruct (Ascii.eqb_spec c "/") as [-> | Hne]; [discriminate Hc | reflexivity].
Qed.

Lemma after_last_absent (c : ascii) (s : string) :
  lacks c s = true -> Py.after_last c s = s.
Proof.
  induction s as [|a s IH]; intros Hs; [reflexivity|].
  cbn [lacks] in Hs. apply andb_true_iff in Hs as [Ha Hrest].
  cbn [Py.after_last]. rewrite (contains_lacks c EmptyString s Hrest).
  apply negb_true_iff in Ha. rewrite Ha. reflexivity.
Qed.

Lemma scrubbed_clean (s : string) :
  all_chars is_safe s = true -> scrubbed s = s.
Proof.
  intros Hs. unfold scrubbed.
  rewrite (after_last_absent "/" s (safe_lacks_slash s Hs)).
  induction s as [|c s IH]; [reflexivity|].
  cbn [all_chars] in Hs. apply andb_true_iff in Hs as [Hc Hrest].
  unfold is_safe in Hc. apply andb_true_iff in Hc as [Hd Hctl].
  apply negb_true_iff in Hd. cbn [map_chars filter_chars].
  rewrite Hd, Hctl, (IH Hrest). reflexivity.
Qed.

Lemma sanitize_clean (s : string) :
  all_chars is_safe s = true ->
  (String.length s <= 255)%nat ->
  s <> "" -> s <> "." -> s <> ".." ->
  sanitize_filename s = s.
Proof.
  intros Hs Hlen H0 H1 H2. rewrite sanitize_unfold, (scrubbed_clean s Hs).
  destruct (Nat.ltb_spec 255 (String.length s)); [lia|].
  unfold guarded.
  destruct (String.eqb_spec s ""); [contradiction|].
  destruct (String.eqb_spec s "."); [contradiction|].
  destruct (String.eqb_spec s ".."); [contradiction|].
  reflexivity.
Qed.

End SanitizeFacts.

(** X16. The name [sanitize_filename] returns has no path separator, none of
    the characters it replaces and no control character, and it is never
    empty, [.] or [..]. *)
Theorem sanitize_filename_safe (filename : string) :
  Sanitize.all_chars Sanitize.is_safe (Sanitize.sanitize_filename filename) = true
  /\ Py.contains "/" (Sanitize.sanitize_filename filename) = false
  /\ Sanitize.sanitize_filename filename <> ""
  /\ Sanitize.sanitize_filename filename <> "."
  /\ Sanitize.sanitize_filename filename <> "..".
Proof.
  split; [apply sanitize_safe_chars|]. split.
  - apply contains_lacks, safe_lacks_slash, sanitize_safe_chars.
  - rewrite sanitize_unfold. apply guarded_not_special.
Qed.

(** X17. The result is at most 255 characters long, provided the extension of
    the scrubbed name is: the cut is made in the part before the
    extension. *)
Theorem sanitize_filename_length (filename : string) :
  (String.length (Py.splitext_ext (Sanitize.scrubbed filename)) <= 255)%nat ->
  (String.length (Sanitize.sanitize_filename filename) <= 255)%nat.
Proof. apply sanitize_short. Qed.

Module SanitizeRuns.

Definition long_name : string :=
  (String.concat "" (repeat "a" 300) ++ ".png")%string.

Definition long_extension : string :=
  ("a." ++ String.concat "" (repeat "x" 300))%string.

End SanitizeRuns.

Lemma sanitize_filename_length_witness :
  (String.length (Sanitize.sanitize_filename SanitizeRuns.long_name) <= 255)%nat.
Proof.
  apply (sanitize_filename_length SanitizeRuns.long_name).
  vm_compute. repeat constructor.
Defined.

(** Without that proviso the bound fails: the name [a.xxx...] with 300
    [x] comes back whole. *)
Example sanitize_long_extension :
  String.length (Sanitize.sanitize_filename SanitizeRuns.long_extension) = 301%nat.
Proof. vm_compute. reflexivity. Qed.

(** X18. A name that is already clean (safe characters only, at most 255 of
    them, not empty, [.] or [..]) comes back unchanged; so sanitizing
    twice is sanitizing once, whenever the extension is at most 255
    long. *)
Theorem sanitize_filename_idempotent (filename : string) :
  (Sanitize.all_chars Sanitize.is_safe filename = true ->
   (String.length filename <= 255)%nat ->
   filename <> "" -> filename <> "." -> filename <> ".." ->
   Sanitize.sanitize_filename filename = filename)
  /\ ((String.length (Py.splitext_ext (Sanitize.scrubbed filename)) <= 255)%nat ->
      Sanitize.sanitize_filename (Sanitize.sanitize_filename filename)
      = Sanitize.sanitize_filename filename).
Proof.
  split; [apply sanitize_clean|].
  intros Hext. apply sanitize_clean.
  - apply sanitize_safe_chars.
  - apply sanitize_short. exact Hext.
  - rewrite sanitize_unfold. apply guarded_not_special.
  - rewrite sanitize_unfold. apply guarded_not_special.
  - rewrite sanitize_unfold. apply guarded_not_special.
Qed.

Lemma sanitize_filename_idempotent_witness :
  Sanitize.sanitize_filename "holiday photo.png" = "holiday photo.png"
  /\ Sanitize.sanitize_filename (Sanitize.sanitize_filename "../a<b>.png")
     = Sanitize.sanitize_filename "../a<b>.png".
Proof.
  split.
  - apply (sanitize_filename_idempotent "holiday photo.png");
      try reflexivity; try discriminate.
    vm_compute. repeat constructor.
  - apply (sanitize_filename_idempotent "../a<b>.png").
    vm_compute. repeat constructor.
Defined.

(** ** [check_password_strength]

    [str.isupper], [str.islower], [str.isdigit] and [str.lower] are
    Python's: the properties below hold whatever they are. *)

Module Password.

Section WithStr.

Variables isupper islower isdigit : ascii -> bool.
Variable lower : string -> string.

(** [any(p(c) for c in s)] *)
Fixpoint any_char (p : ascii -> bool) (s : string) : bool :=
  match s with
  | EmptyString => false
  | String c s' => p c || any_char p s'
  end.

Definition special_characters : string := "!@#$%^&*()_+-=[]{}|;:,.<>?".

Definition common_patterns : list string :=
  ["password"; "123456"; "qwerty"; "admin"; "letmein"].

(** One [if ...: score += 1 else: suggestions.append(...)]. *)
Definition check (passed : bool) (suggestion : string)
  (state : Z * list string) : Z * list string :=
  let (score, suggestions) := state in
  if passed then (score + 1, suggestions)
  else (score, suggestions ++ [suggestion])%list.

Definition long_enough (password : string) : bool :=
  8 <=? Z.of_nat (String.length password).
Definition has_upper (password : string) : bool := any_char isupper password.
Definition has_lower (password : string) : bool := any_char islower password.
Definition has_digit (password : string) : bool := any_char isdigit password.
Definition has_special (password : string) : bool :=
  any_char (fun c => any_char (Ascii.eqb c) special_characters) password.
Definition is_common (password : string) : bool :=
  existsb (fun pattern => Py.contains pattern (lower password)) common_patterns.

Definition check_password_strength (password : string)
  : bool * Z * list string :=
  let state := (0, []) in
  let state := check (long_enough password) "Use at least 8 characters" state in
  let state := check (has_upper password) "Include uppercase letters" state in
  let state := check (has_lower password) "Include lowercase letters" state in
  let state := check (has_digit password) "Include numbers" state in
  let state := check (has_special password) "Include special characters" state in
  let (score, suggestions) := state in
  let (score, suggestions) :=
    if is_common password
    then (score - 2, suggestions ++ ["Avoid common patterns"])%list
    else (score, suggestions) in
  let is_valid := (3 <=? score) && (6 <=? Z.of_nat (String.length password)) in
  (is_valid, score, suggestions).

End WithStr.

(** The tests on ASCII characters, to run the function. *)
Definition ascii_between (lo hi : nat) (c : ascii) : bool :=
  Nat.leb lo (nat_of_ascii c) && Nat.leb (nat_of_ascii c) hi.

Definition run (password : string) : bool * Z * list string :=
  check_password_strength (ascii_between 65 90) (ascii_between 97 122)
    (ascii_between 48 57) Py.lower password.

End Password.

Example password_examples :
  map Password.run ["Tr0ub4dor&3"; "password"; "Password1!"; "Ab1!xy"]
  = [ (true, 5, []);
      (false, 0, ["Include uppercase letters"; "Include numbers";
                  "Include special characters"; "Avoid common patterns"]);
      (true, 3, ["Avoid common patterns"]);
      (true, 4, ["Use at least 8 characters"]) ].
Proof. reflexivity. Qed.

(** X19. Score and suggestions account for each other: every failed test adds
    one suggestion and every passed one a point, and a common pattern costs
    two points and adds a suggestion. So the score is between -2 and 5, and
    the score and the number of suggestions add up to 5, or to 4 on a
    common pattern. *)
Theorem password_score_accounts (isupper islower isdigit : ascii -> bool)
  (lower : string -> string) (password : string) :
  let '(is_valid, score, suggestions) :=
    Password.check_password_strength isupper islower isdigit lower password in
  -2 <= score <= 5
  /\ score + Py.len suggestions
     = if Password.is_common lower password then 4 else 5.
Proof.
  unfold Password.check_password_strength, Password.check.
  destruct (Password.long_enough password), (Password.has_upper isupper password),
    (Password.has_lower islower password), (Password.has_digit isdigit password),
    (Password.has_special password), (Password.is_common lower password);
    cbn; lia.
Qed.

(** X20. A password that contains one of the common patterns is accepted only
    if it passes all five other tests: it is at least 8 characters long and
    has an uppercase letter, a lowercase letter, a digit and a special
    character. *)
Theorem password_common_pattern_needs_all (isupper islower isdigit : ascii -> bool)
  (lower : string -> string) (password : string) (score : Z)
  (suggestions : list string) :
  Password.check_password_strength isupper islower isdigit lower password
  = (true, score, suggestions) ->
  Password.is_common lower password = true ->
  Password.long_enough password = true
  /\ Password.has_upper isupper password = true
  /\ Password.has_lower islower password = true
  /\ Password.has_digit isdigit password = true
  /\ Password.has_special password = true
  /\ score = 3
  /\ suggestions = ["Avoid common patterns"].
Proof.
  unfold Password.check_password_strength, Password.check. intros H Hcommon.
  rewrite Hcommon in H.
  destruct (Password.long_enough password), (Password.has_upper isupper password),
    (Password.has_lower islower password), (Password.has_digit isdigit password),
    (Password.has_special password);
    cbn in H; inversion H; repeat split; reflexivity.
Qed.

Lemma password_common_pattern_needs_all_witness :
  Password.long_enough "Password1!" = true
  /\ Password.has_upper (Password.ascii_between 65 90) "Password1!" = true
  /\ Password.has_lower (Password.ascii_between 97 122) "Password1!" = true
  /\ Password.has_digit (Password.ascii_between 48 57) "Password1!" = true
  /\ Password.has_special "Password1!" = true
  /\ 3 = 3
  /\ ["Avoid common patterns"] = ["Avoid common patterns"].
Proof.
  apply (password_common_pattern_needs_all (Password.ascii_between 65 90)
           (Password.ascii_between 97 122) (Password.ascii_between 48 57)
           Py.lower "Password1!" 3 ["Avoid common patterns"]);
    reflexivity.
Defined.

(** ** [rate_limit]

    [rate_limit_storage] is a dict shared by all decorated functions; it is
    threaded through here. [decorated_function] is the source's inner function
    up to the call of the wrapped function: it returns the storage it leaves and
    whether the call goes on ([abort(429)] otherwise). *)

Module RateLimit.

Definition storage : Type := string -> option (list float).

Definition empty : storage := fun _ => None.

(** [storage[key] = value] *)
Definition store (st : storage) (key : string) (value : list float) : storage :=
  fun k => if String.eqb k key then Some value else st k.

(** [':'.join(key_parts)]; [user_id] is [g.user.id] when there is a user. *)
Definition limit_key (name : string) (per_ip per_user : bool)
  (remote_addr : string) (user_id : option Z) : string :=
  Py.join ":"
    ([name] ++ (if per_ip then [remote_addr] else [])
     ++ match per_user, user_id with
        | true, Some id => [Py.str_of_int id]
        | _, _ => []
        end)%list.

(** [now - t < 3600] *)
Definition recent (now t : float) : bool :=
  PrimFloat.ltb (PrimFloat.sub now t) 3600%float.

Definition decorated_function (max_per_hour : Z) (key : string) (now : float) (st : storage)
  : storage * bool :=
  let st := match st key with None => store st key [] | Some _ => st end in
  let kept := filter (recent now) (get (st key) []) in
  let st := store st key kept in
  if Py.len kept >=? max_per_hour then (st, false)
  else (store st key (kept ++ [now])%list, true).

(** Calls of one decorated function by one client, at the given times. *)
Fixpoint serve (max_per_hour : Z) (key : string) (times : list float)
  (st : storage) : storage * list bool :=
  match times with
  | [] => (st, [])
  | now :: later =>
      let (st, verdict) := decorated_function max_per_hour key now st in
      let (st, verdicts) := serve max_per_hour key later st in
      (st, verdict :: verdicts)
  end.

(** Each time is within the hour of every earlier one. *)
Fixpoint within_the_hour (times : list float) : Prop :=
  match times with
  | [] => True
  | t :: later => Forall (fun now => recent now t = true) later
                  /\ within_the_hour later
  end.

End RateLimit.

Section RateLimitFacts.

Import RateLimit.

Lemma store_same (st : storage) (key : string) (value : list float) :
  store st key value key = Some value.
Proof. unfold store. rewrite String.eqb_refl. reflexivity. Qed.

Lemma store_other (st : storage) (key k : string) (value : list float) :
  k <> key -> store st key value k = st k.
Proof.
  intros Hne. unfold store.
  destruct (String.eqb_spec k key); [contradiction | reflexivity].
Qed.

Lemma decorated_function_spec (max_per_hour : Z) (key : string) (now : float) (st : storage)
  (kept : list float) :
  kept = filter (recent now) (get (st key) []) ->
  (forall k, k <> key -> fst (decorated_function max_per_hour key now st) k = st k)
  /\ snd (decorated_function max_per_hour key now st) = (Py.len kept <? max_per_hour)
  /\ fst (decorated_function max_per_hour key now st) key
     = Some (if Py.len kept <? max_per_hour then kept ++ [now] else kept)%list.
Proof.
  intros Hdef. unfold decorated_function.
  assert (Hkept : filter (recent now)
                    (get (match st key with
                          | None => store st key []
                          | Some _ => st
                          end key) []) = kept).
  { rewrite Hdef. destruct (st key) eqn:Hk; [rewrite Hk | rewrite store_same];
      reflexivity. }
  rewrite Hkept. rewrite Z.geb_leb, Z.ltb_antisym.
  destruct (max_per_hour <=? Py.len kept); cbn [fst snd negb].
  - split; [|split; [reflexivity | apply store_same]].
    intros k Hne. rewrite store_other by exact Hne.
    destruct (st key); [reflexivity | apply store_other; exact Hne].
  - split; [|split; [reflexivity | apply store_same]].
    intros k Hne. rewrite !store_other by exact Hne.
    destruct (st key); [reflexivity | apply store_other; exact Hne].
Qed.

Lemma filter_all {A : Type} (f : A -> bool) (l : list A) :
  Forall (fun a => f a = true) l -> filter f l = l.
Proof.
  induction 1 as [|a l Ha _ IH]; [reflexivity|].
  cbn [filter]. rewrite Ha, IH. reflexivity.
Qed.

Lemma filter_shorter {A : Type} (f : A -> bool) (l : list A) :
  Py.len (filter f l) <= Py.len l.
Proof. unfold Py.len. pose proof (filter_length_le f l). lia. Qed.

Lemma len_app_one {A : Type} (l : list A) (a : A) :
  Py.len (l ++ [a])%list = Py.len l + 1.
Proof. unfold Py.len. rewrite length_app. cbn. lia. Qed.

Lemma serve_burst (max_per_hour : Z) (key : string) :
  forall times st stored,
    get (st key) [] = stored ->
    Forall (fun now => Forall (fun t => recent now t = true) stored) times ->
    within_the_hour times ->
    snd (serve max_per_hour key times st)
    = map (fun i => Py.len stored + Z.of_nat i <? max_per_hour)
        (seq 0 (List.length times)).
Proof.
  induction times as [|now later IH]; intros st stored Hst Hold Hnew;
    [reflexivity|].
  cbn [serve].
  inversion Hold as [|? ? Hnow Hlater]; subst.
  destruct (decorated_function_spec max_per_hour key now st (get (st key) []))
    as (_ & Hverdict & Hkey).
  { symmetry. apply filter_all. exact Hnow. }
  destruct (decorated_function max_per_hour key now st) as [st' verdict].
  cbn [fst snd] in Hverdict, Hkey.
  destruct Hnew as [Hfirst Hrest].
  specialize (IH st'
                (if Py.len (get (st key) []) <? max_per_hour
                 then (get (st key) [] ++ [now])%list else get (st key) [])).
  destruct (serve max_per_hour key later st') as [st'' verdicts].
  cbn [snd] in IH |- *. cbn [List.length seq map].
  rewrite Z.add_0_r, <- Hverdict. f_equal.
  rewrite IH.
  - rewrite <- seq_shift, map_map. apply map_ext_in. intros i _.
    destruct (Z.ltb_spec (Py.len (get (st key) [])) max_per_hour) as [Hlt | Hge].
    + rewrite len_app_one. f_equal. lia.
    + destruct (Z.ltb_spec (Py.len (get (st key) []) + Z.of_nat i) max_per_hour);
        destruct (Z.ltb_spec (Py.len (get (st key) []) + Z.of_nat (S i))
                    max_per_hour); try reflexivity; lia.
  - rewrite Hkey. reflexivity.
  - clear IH. revert Hlater Hfirst.
    generalize (get (st key) []) as stored. intros stored Hlater Hfirst.
    rewrite Forall_forall in *. intros later_now Hin.
    destruct (Py.len stored <? max_per_hour); [|apply Hlater; exact Hin].
    apply Forall_app. split; [apply Hlater; exact Hin|].
    constructor; [apply Hfirst; exact Hin | constructor].
  - exact Hrest.
Qed.

End RateLimitFacts.

(** X21. One call of a rate-limited function touches the record of its own key
    only, goes on exactly when fewer than [max_per_hour] of the recorded
    times are within the hour, and never leaves more than [max_per_hour]
    times on record where there were no more before. *)
Theorem rate_limit_one_call (max_per_hour : Z) (key : string) (now : float)
  (st : RateLimit.storage) :
  let recorded := get (st key) [] in
  let kept := filter (RateLimit.recent now) recorded in
  let after := fst (RateLimit.decorated_function max_per_hour key now st) in
  (forall k, k <> key -> after k = st k)
  /\ snd (RateLimit.decorated_function max_per_hour key now st) = (Py.len kept <? max_per_hour)
  /\ (0 <= max_per_hour -> Py.len recorded <= max_per_hour ->
      Py.len (get (after key) []) <= max_per_hour).
Proof.
  intros recorded kept after.
  destruct (decorated_function_spec max_per_hour key now st kept eq_refl)
    as (Hother & Hverdict & Hkey).
  split; [exact Hother|]. split; [exact Hverdict|].
  intros Hmax Hlen. unfold after. rewrite Hkey. cbn [get].
  fold recorded. fold kept.
  pose proof (filter_shorter (RateLimit.recent now) recorded) as Hshort.
  fold kept in Hshort.
  destruct (Z.ltb_spec (Py.len kept) max_per_hour).
  - rewrite len_app_one. lia.
  - lia.
Qed.

Lemma rate_limit_one_call_witness :
  Py.len (get (fst (RateLimit.decorated_function 2 "upload:10.0.0.1" 5000%float
                      (RateLimit.store RateLimit.empty "upload:10.0.0.1"
                         [1000%float; 4000%float]))
                 "upload:10.0.0.1") [])
  <= 2.
Proof.
  apply (rate_limit_one_call 2 "upload:10.0.0.1" 5000%float
           (RateLimit.store RateLimit.empty "upload:10.0.0.1"
              [1000%float; 4000%float])).
  - lia.
  - vm_compute. discriminate.
Defined.

(** X22. Of the calls one client makes to one function within an hour, starting
    with nothing on record, exactly the first [max_per_hour] go on: the
    [i]-th call (from 0) proceeds if and only if [i < max_per_hour]. *)
Theorem rate_limit_first_calls_pass (max_per_hour : Z) (key : string)
  (times : list float) (st : RateLimit.storage) :
  st key = None ->
  RateLimit.within_the_hour times ->
  snd (RateLimit.serve max_per_hour key times st)
  = map (fun i => Z.of_nat i <? max_per_hour) (seq 0 (List.length times)).
Proof.
  intros Hfresh Hhour.
  rewrite (serve_burst max_per_hour key times st []).
  - reflexivity.
  - rewrite Hfresh. reflexivity.
  - apply Forall_forall. intros now _. constructor.
  - exact Hhour.
Qed.

Lemma rate_limit_first_calls_pass_witness :
  snd (RateLimit.serve 2 "upload:10.0.0.1"
         [1000%float; 1001%float; 4599%float] RateLimit.empty)
  = [true; true; false].
Proof.
  apply (rate_limit_first_calls_pass 2 "upload:10.0.0.1"
           [1000%float; 1001%float; 4599%float] RateLimit.empty).
  - reflexivity.
  - cbn [RateLimit.within_the_hour]. repeat split; repeat constructor.
Defined.

(** Once the hour has passed the budget is back. *)
Example rate_limit_after_the_hour :
  snd (RateLimit.serve 2 "upload:10.0.0.1"
         [1000%float; 1001%float; 4599%float; 4600%float; 4601%float; 4602%float]
         RateLimit.empty)
  = [true; true; false; true; true; false].
Proof. vm_compute. reflexivity. Qed.
